(** * atlite.wind: extrapolation of wind speeds with the logarithmic law

    A shallow embedding of [extrapolate_wind_speed] (src/atlite/wind.py) and
    the properties of it that the specification states.

    How the program is modelled:

    - a Python [str] is a [string]; variable names are ASCII;
    - a Python [int] is a [Z]; [to_height] is an [int] or a finite [float],
      the latter carried by the rational it denotes ([Py.number]);
      [from_height] is an [int] or [None].  A [to_height] that is not a
      number or is infinite makes [int] raise at line 65 and is not in the
      model;
    - the heights read from the names and their distances to [to_height] are
      exact numbers.  numpy computes them in integers of fixed width, or in
      floats when [to_height] is one: the properties that depend on which
      height is chosen assume an integer [to_height] and [small] heights,
      for which numpy's numbers are the exact ones
      ([fixed_width_distances_exact]);
    - an [xarray.Dataset] is an insertion-ordered association list from the
      names of its data variables to references into a store of variable
      objects; a [DataArray] obtained
      from it is a name together with such a reference, so the array the
      fast lane returns aliases the variable of the dataset;
    - the variables of one dataset share its coordinates, so arithmetic
      between them aligns without loss and broadcasts by dimension name;
    - array values live in a carrier [F] with the operations numpy applies
      element-wise ([*], [/], [log]); they are total, as numpy's are, and
      what they do on infinities and not-a-number is stated by [IeeeLaws];
    - exceptions are values of [Py.exn]; a call is a function from the store
      to an outcome and a new store. *)

From Stdlib Require Import String Ascii List ZArith QArith Qabs Lia Bool Arith.
From Stdlib Require Import DecimalString DecimalPos.
From Stdlib Require Import Reals Qreals Lra.
Import ListNotations.

Local Close Scope Q_scope.
Local Close Scope R_scope.
Local Open Scope nat_scope.
Local Open Scope string_scope.
Local Open Scope list_scope.

(** ** Python built-ins used by the function *)

Module Py.

(** Exceptions the function can raise, with the class name Python reports. *)
Inductive exn : Type :=
| AssertionError (msg : string)
| ValueError (literal : string)
| KeyError (key : string).

Definition exn_class (e : exn) : string :=
  match e with
  | AssertionError _ => "AssertionError"
  | ValueError _ => "ValueError"
  | KeyError _ => "KeyError"
  end.

Inductive result (A : Type) : Type :=
| Ok (a : A)
| Raise (e : exn).
Arguments Ok {A} a.
Arguments Raise {A} e.

(** [int] or finite [float]. *)
Inductive number : Type :=
| PyInt (z : Z)
| PyFloat (q : Q).

(** [int(x)]: the identity on an [int], truncation towards zero on a
    [float]. *)
Definition int (x : number) : Z :=
  match x with
  | PyInt z => z
  | PyFloat q => Z.quot (Qnum q) (Zpos (Qden q))
  end.

Definition value (x : number) : Q :=
  match x with
  | PyInt z => inject_Z z
  | PyFloat q => q
  end.

(** ["{:d}".format(z)]: the decimal digits, with a minus sign when
    negative. *)
Definition format_d (z : Z) : string := NilZero.string_of_int (Z.to_int z).

(** [s.startswith(p)] *)
Definition startswith (s p : string) : bool := String.prefix p s.

(** [s[3:-1]]: from index 3 up to, and without, the last character. *)
Definition slice_3_m1 (s : string) : string :=
  String.substring 3 (String.length s - 1 - 3)%nat s.

(** *** [int(s)] on a string, base 10

    Leading and trailing white space is skipped, one sign is allowed, and the
    digits may be separated by single underscores. *)

Definition is_space (c : ascii) : bool :=
  let n := nat_of_ascii c in
  (((9 <=? n) && (n <=? 13)) || (n =? 32))%nat.

Definition is_digit (c : ascii) : bool :=
  let n := nat_of_ascii c in
  ((48 <=? n) && (n <=? 57))%nat.

Definition is_underscore (c : ascii) : bool := (nat_of_ascii c =? 95)%nat.

Definition digit_value (c : ascii) : Z := Z.of_nat (nat_of_ascii c - 48)%nat.

Fixpoint lstrip (s : string) : string :=
  match s with
  | String c s' => if is_space c then lstrip s' else s
  | EmptyString => EmptyString
  end.

Fixpoint all_space (s : string) : bool :=
  match s with
  | String c s' => is_space c && all_space s'
  | EmptyString => true
  end.

(** The digits of a literal, read from the left.  [prev_us] tells whether the
    previous character was an underscore; the result is the value read and
    the rest of the string, or [None] on a doubled or trailing underscore. *)
Fixpoint digits_from (s : string) (prev_us : bool) (acc : Z)
  : option (Z * string) :=
  match s with
  | String c s' =>
      if is_digit c then digits_from s' false (10 * acc + digit_value c)%Z
      else if is_underscore c then
             if prev_us then None else digits_from s' true acc
      else if prev_us then None else Some (acc, s)
  | EmptyString => if prev_us then None else Some (acc, EmptyString)
  end.

Definition unsigned_literal (s : string) : option Z :=
  match s with
  | String c _ =>
      if is_digit c then
        match digits_from s false 0 with
        | Some (v, rest) => if all_space rest then Some v else None
        | None => None
        end
      else None
  | EmptyString => None
  end.

Definition int_of_str (s : string) : option Z :=
  match lstrip s with
  | String c s' =>
      if Ascii.eqb c "+" then unsigned_literal s'
      else if Ascii.eqb c "-" then option_map Z.opp (unsigned_literal s')
      else unsigned_literal (String c s')
  | EmptyString => None
  end.

End Py.


(** ** Arrays, variables and the store *)

(** What numpy provides on the element type of the arrays, and what the host
    interpreter decides: [keep_attrs] is xarray's option of that name, and
    [float_repr] is the text [format] gives for a float. *)
Class Runtime (F : Type) : Type := {
  mul : F -> F -> F;
  div : F -> F -> F;
  log : F -> F;
  of_number : Py.number -> F;
  keep_attrs : bool;
  float_repr : Q -> string
}.

(** A grid point assigns a position to every dimension name; an array reads
    the positions of its own dimensions, which is how xarray broadcasts by
    name. *)
Definition Index : Type := string -> nat.

(** [attrs]: a dict from strings to strings, in insertion order. *)
Definition Attrs : Type := list (string * string).

Fixpoint dict_get (d : Attrs) (k : string) : option string :=
  match d with
  | [] => None
  | (k', v) :: d' => if String.eqb k' k then Some v else dict_get d' k
  end.

Fixpoint dict_set (d : Attrs) (k v : string) : Attrs :=
  match d with
  | [] => [(k, v)]
  | (k', v') :: d' =>
      if String.eqb k' k then (k', v) :: d' else (k', v') :: dict_set d' k v
  end.

(** [d.update(kvs)] *)
Definition dict_update (d : Attrs) (kvs : list (string * string)) : Attrs :=
  fold_left (fun acc kv => dict_set acc (fst kv) (snd kv)) kvs d.

Record VarObj (F : Type) : Type := mkVar {
  v_dims : list string;
  v_data : Index -> F;
  v_attrs : Attrs
}.
Arguments mkVar {F} _ _ _.
Arguments v_dims {F} _.
Arguments v_data {F} _ _.
Arguments v_attrs {F} _.

Definition loc : Type := nat.

(** The store of the variable objects of xarray: [next] is the first free reference. *)
Record Store (F : Type) : Type := mkStore {
  next : loc;
  cell : loc -> VarObj F
}.
Arguments mkStore {F} _ _.
Arguments next {F} _.
Arguments cell {F} _ _.

(** A dataset maps names to variable objects, in insertion order. *)
Definition Dataset : Type := list (string * loc).

(** A [DataArray] is a name (or [None]) and the variable object it wraps. *)
Record DataArray : Type := mkDataArray {
  da_name : option string;
  da_var : loc
}.

(** The array reads the positions of the dimensions [ds] only. *)
Definition reads_only {F : Type} (ds : list string) (data : Index -> F)
  : Prop :=
  forall ix ix' : Index,
    (forall d, In d ds -> ix d = ix' d) -> data ix = data ix'.

(** Computations on the store that return or raise. *)
Definition M (F A : Type) : Type := Store F -> Py.result A * Store F.

Definition ret {F A : Type} (a : A) : M F A := fun st => (Py.Ok a, st).

Definition raise {F A : Type} (e : Py.exn) : M F A :=
  fun st => (Py.Raise e, st).

Definition bind {F A B : Type} (m : M F A) (k : A -> M F B) : M F B :=
  fun st =>
    match m st with
    | (Py.Ok a, st') => k a st'
    | (Py.Raise e, st') => (Py.Raise e, st')
    end.

Definition lift {F A : Type} (r : Py.result A) : M F A :=
  fun st => (r, st).

Declare Scope py_scope.
Delimit Scope py_scope with py.
Notation "x <- m ;; k" := (bind m (fun x => k))
  (at level 61, m at next level, right associativity) : py_scope.
Notation "m ;;; k" := (bind m (fun _ => k))
  (at level 61, right associativity) : py_scope.

Definition read {F : Type} (l : loc) : M F (VarObj F) :=
  fun st => (Py.Ok (cell st l), st).

Definition alloc {F : Type} (v : VarObj F) : M F loc :=
  fun st =>
    (Py.Ok (next st),
     mkStore (S (next st))
       (fun l => if Nat.eqb l (next st) then v else cell st l)).

Definition write {F : Type} (l : loc) (v : VarObj F) : M F unit :=
  fun st =>
    (Py.Ok tt,
     mkStore (next st) (fun l' => if Nat.eqb l' l then v else cell st l')).

(** ** The dataset interface *)

Fixpoint lookup (ds : Dataset) (name : string) : option loc :=
  match ds with
  | [] => None
  | (k, l) :: ds' => if String.eqb k name then Some l else lookup ds' name
  end.

(** [name in ds] *)
Definition contains (ds : Dataset) (name : string) : bool :=
  match lookup ds name with Some _ => true | None => false end.

(** [for s in ds] *)
Definition keys (ds : Dataset) : list string := map fst ds.

(** [ds[name]]: a fresh wrapper around the stored variable. *)
Definition getitem {F : Type} (ds : Dataset) (name : string)
  : M F DataArray :=
  match lookup ds name with
  | Some l => ret (mkDataArray (Some name) l)
  | None => raise (Py.KeyError name)
  end.

(** ** Array arithmetic *)

Definition mem_dim (d : string) (dims : list string) : bool :=
  existsb (String.eqb d) dims.

(** Dimensions of [a op b]: those of [a], then those only [b] has. *)
Definition broadcast_dims (d1 d2 : list string) : list string :=
  d1 ++ filter (fun d => negb (mem_dim d d1)) d2.

Definition kept_attrs {F : Type} `{Runtime F} (a : Attrs) : Attrs :=
  if keep_attrs then a else [].

(** The name of [a op b]: kept when both agree. *)
Definition result_name (a b : option string) : option string :=
  match a, b with
  | Some x, Some y => if String.eqb x y then a else None
  | None, None => None
  | _, _ => None
  end.

(** [a op b] on two arrays *)
Definition binary_op {F : Type} `{Runtime F} (op : F -> F -> F)
  (a b : DataArray) : M F DataArray :=
  (va <- read (da_var a) ;;
   vb <- read (da_var b) ;;
   l <- alloc (mkVar
                 (broadcast_dims (v_dims va) (v_dims vb))
                 (fun ix => op (v_data va ix) (v_data vb ix))
                 (kept_attrs (v_attrs va))) ;;
   ret (mkDataArray (result_name (da_name a) (da_name b)) l))%py.

(** [x / a] for a scalar [x] *)
Definition scalar_div {F : Type} `{Runtime F} (x : F) (a : DataArray)
  : M F DataArray :=
  (va <- read (da_var a) ;;
   l <- alloc (mkVar (v_dims va)
                 (fun ix => div x (v_data va ix))
                 (kept_attrs (v_attrs va))) ;;
   ret (mkDataArray (da_name a) l))%py.

(** [np.log(a)] *)
Definition np_log {F : Type} `{Runtime F} (a : DataArray) : M F DataArray :=
  (va <- read (da_var a) ;;
   l <- alloc (mkVar (v_dims va)
                 (fun ix => log (v_data va ix))
                 (kept_attrs (v_attrs va))) ;;
   ret (mkDataArray (da_name a) l))%py.

(** [a.attrs.update(kvs)]: in place, on the variable [a] wraps. *)
Definition attrs_update {F : Type} (a : DataArray)
  (kvs : list (string * string)) : M F unit :=
  (va <- read (da_var a) ;;
   write (da_var a)
     (mkVar (v_dims va) (v_data va) (dict_update (v_attrs va) kvs)))%py.

(** [a.rename(name)]: a new wrapper around the same variable. *)
Definition rename {F : Type} (a : DataArray) (name : string)
  : M F DataArray :=
  ret (mkDataArray (Some name) (da_var a)).

(** ** numpy on the list of heights *)

Fixpoint argmin_from (l : list Q) (i : nat) (best : Q) (best_i : nat) : nat :=
  match l with
  | [] => best_i
  | x :: l' =>
      if Qle_bool best x then argmin_from l' (S i) best best_i
      else argmin_from l' (S i) x i
  end.

(** [np.argmin(l)]: the first index of the least element. *)
Definition argmin (l : list Q) : nat :=
  match l with
  | [] => 0%nat
  | x :: l' => argmin_from l' 1%nat x 0%nat
  end.

(** ** The function *)

(** ["wnd{h:0d}m".format(h=h)] *)
Definition wnd_name (h : Z) : string := "wnd" ++ Py.format_d h ++ "m".

(** [[int(s[3:-1]) for s in ds if s.startswith("wnd")]] *)
Fixpoint scan_heights (names : list string) : Py.result (list Z) :=
  match names with
  | [] => Py.Ok []
  | s :: rest =>
      if Py.startswith s "wnd" then
        match Py.int_of_str (Py.slice_3_m1 s) with
        | Some h =>
            match scan_heights rest with
            | Py.Ok hs => Py.Ok (h :: hs)
            | Py.Raise e => Py.Raise e
            end
        | None => Py.Raise (Py.ValueError (Py.slice_3_m1 s))
        end
      else scan_heights rest
  end.

(** [np.abs(heights - to_height)] *)
Definition distances (heights : list Z) (to_height : Py.number) : list Q :=
  map (fun h => Qabs (inject_Z h - Py.value to_height)) heights.

(** Lines 69 to 76: the height to extrapolate from. *)
Definition closest_height (ds : Dataset) (to_height : Py.number)
  : Py.result Z :=
  match scan_heights (keys ds) with
  | Py.Ok heights =>
      if Nat.eqb (List.length heights) 0 then
        Py.Raise (Py.AssertionError "Wind speed is not in dataset")
      else Py.Ok (nth (argmin (distances heights to_height)) heights 0%Z)
  | Py.Raise e => Py.Raise e
  end.

Definition source_height (ds : Dataset) (to_height : Py.number)
  (from_height : option Z) : Py.result Z :=
  match from_height with
  | Some h => Py.Ok h
  | None => closest_height ds to_height
  end.

(** ["{}".format(x)] *)
Definition format_number {F : Type} `{Runtime F} (x : Py.number) : string :=
  match x with
  | Py.PyInt z => Py.format_d z
  | Py.PyFloat q => float_repr q
  end.

Definition long_name {F : Type} `{Runtime F} (to_height : Py.number)
  (from_height : Z) : string :=
  "extrapolated " ++ format_number to_height
  ++ " m wind speed using logarithmic method with roughness and "
  ++ Py.format_d from_height ++ " m wind speed".

Definition extrapolate_wind_speed {F : Type} `{Runtime F} (ds : Dataset)
  (to_height : Py.number) (from_height : option Z) : M F DataArray :=
  let to_name := wnd_name (Py.int to_height) in
  if contains ds to_name then getitem ds to_name
  else
    (from_height <- lift (source_height ds to_height from_height) ;;
     let from_name := wnd_name from_height in
     wnd_from <- getitem ds from_name ;;
     rough_to <- getitem ds "roughness" ;;
     quot_to <- scalar_div (of_number to_height) rough_to ;;
     log_to <- np_log quot_to ;;
     rough_from <- getitem ds "roughness" ;;
     quot_from <- scalar_div (of_number (Py.PyInt from_height)) rough_from ;;
     log_from <- np_log quot_from ;;
     ratio <- binary_op div log_to log_from ;;
     wnd_spd <- binary_op mul wnd_from ratio ;;
     attrs_update wnd_spd
       [("long name", long_name to_height from_height);
        ("units", "m s**-1")] ;;;
     rename wnd_spd to_name)%py.


(** Every variable of the dataset is an object of the store. *)
Definition well_stored {F : Type} (ds : Dataset) (st : Store F) : bool :=
  forallb (fun kv => Nat.ltb (snd kv) (next st)) ds.

(** Outcome of a call, and the store it leaves. *)
Definition outcome {F A : Type} (m : M F A) (st : Store F) : Py.result A :=
  fst (m st).

Definition final_store {F A : Type} (m : M F A) (st : Store F) : Store F :=
  snd (m st).

(** [a.attrs[k]] when present *)
Definition attr {F : Type} (st : Store F) (a : DataArray) (k : string)
  : option string :=
  dict_get (v_attrs (cell st (da_var a))) k.

(** [a.values] at a grid point *)
Definition values {F : Type} (st : Store F) (a : DataArray) (ix : Index) : F :=
  v_data (cell st (da_var a)) ix.

Definition dims {F : Type} (st : Store F) (a : DataArray) : list string :=
  v_dims (cell st (da_var a)).

(** [st'] keeps every object of [st] as it is, and may hold new ones. *)
Definition preserves {F : Type} (st st' : Store F) : Prop :=
  next st <= next st' /\ forall l, l < next st -> cell st' l = cell st l.

(** [m] returns from [st], and [Q] holds of what it returns and leaves. *)
Definition ensures {F A : Type} (m : M F A) (st : Store F)
  (Q : A -> Store F -> Prop) : Prop :=
  exists a st', m st = (Py.Ok a, st') /\ Q a st'.

(** [r] wraps, under [name], a new object [v] added to [st]. *)
Definition fresh_array {F : Type} (st : Store F) (v : VarObj F)
  (name : option string) (r : DataArray) (st' : Store F) : Prop :=
  r = mkDataArray name (next st) /\
  next st' = S (next st) /\
  cell st' (next st) = v /\
  forall l, l < next st -> cell st' l = cell st l.

(** ** The names the docstring describes

    The docstring of the function names the wind speed variables
    ['wnd{height:d}m']: the letters [wnd], the decimal digits of a height and
    the letter [m].  These definitions follow that description, not the
    code. *)

Fixpoint all_digits (s : string) : bool :=
  match s with
  | String c s' => Py.is_digit c && all_digits s'
  | EmptyString => true
  end.

Fixpoint digits_value (s : string) (acc : Z) : Z :=
  match s with
  | String c s' => digits_value s' (10 * acc + Py.digit_value c)%Z
  | EmptyString => acc
  end.

Definition last_char (s : string) : string :=
  String.substring (String.length s - 1)%nat 1 s.

Definition is_wnd_key (s : string) : bool :=
  Py.startswith s "wnd"
  && String.eqb (last_char s) "m"
  && negb (String.eqb (Py.slice_3_m1 s) "")
  && all_digits (Py.slice_3_m1 s).

Definition key_height (s : string) : Z := digits_value (Py.slice_3_m1 s) 0.

(** The heights of the wind speed variables of a dataset. *)
Definition wnd_heights (ds : Dataset) : list Z :=
  map key_height (filter is_wnd_key (keys ds)).

(** No other variable has a name that starts with [wnd]. *)
Definition only_wnd_keys (ds : Dataset) : bool :=
  forallb (fun s => implb (Py.startswith s "wnd") (is_wnd_key s)) (keys ds).

(** ** A real-valued runtime and sample datasets *)

Definition exact_ratio (q : Q) : string :=
  Py.format_d (Qnum q) ++ "/" ++ Py.format_d (Zpos (Qden q)).

(** Arrays of real numbers with the natural logarithm; attributes are not
    kept by arithmetic.  A float is shown by the ratio it denotes, which is
    not the text Python prints: no property below reads it. *)
#[export] Instance real_runtime : Runtime R := {|
  mul := Rmult;
  div := Rdiv;
  log := ln;
  of_number := fun x => Q2R (Py.value x);
  keep_attrs := false;
  float_repr := exact_ratio
|}.

Definition sample_wnd10m : VarObj R :=
  mkVar ["time"; "y"; "x"] (fun ix => (5 + INR (ix "time"))%R) [].

Definition sample_wnd50m : VarObj R :=
  mkVar ["time"; "y"; "x"] (fun ix => (7 + INR (ix "time"))%R) [].

Definition sample_roughness : VarObj R :=
  mkVar ["y"; "x"] (fun _ => (/ 10)%R) [("units", "m")].

Definition sample_gust : VarObj R :=
  mkVar ["time"; "y"; "x"] (fun _ => 9%R) [].

(** [wnd10m], [wnd50m] and [roughness] *)
Definition sample_ds : Dataset :=
  [("wnd10m", 0%nat); ("wnd50m", 1%nat); ("roughness", 2%nat)].

Definition sample_store : Store R :=
  mkStore 3
    (fun l =>
       match l with
       | 0%nat => sample_wnd10m
       | 1%nat => sample_wnd50m
       | _ => sample_roughness
       end).

(** [wnd10m], [wnd_gust] and [roughness] *)
Definition gust_ds : Dataset :=
  [("wnd10m", 0%nat); ("wnd_gust", 1%nat); ("roughness", 2%nat)].

Definition gust_store : Store R :=
  mkStore 3
    (fun l =>
       match l with
       | 0%nat => sample_wnd10m
       | 1%nat => sample_gust
       | _ => sample_roughness
       end).

(** [wnd10], [wnd1m] and [roughness] *)
Definition misnamed_ds : Dataset :=
  [("wnd10", 0%nat); ("wnd1m", 1%nat); ("roughness", 2%nat)].

(** [wnd-5m] and [roughness] *)
Definition signed_ds : Dataset := [("wnd-5m", 0%nat); ("roughness", 2%nat)].

(** Only [roughness] *)
Definition bare_ds : Dataset := [("roughness", 0%nat)].

Definition bare_store : Store R := mkStore 1 (fun _ => sample_roughness).

(** No variable at all *)
Definition empty_ds : Dataset := [].

Definition empty_store : Store R := mkStore 0 (fun _ => sample_roughness).

(** The example of the specification: 5 m/s at 10 m over a roughness of
    0.1 m. *)
Definition formula_ds : Dataset := [("wnd10m", 0%nat); ("roughness", 1%nat)].

Definition formula_store : Store R :=
  mkStore 2
    (fun l =>
       match l with
       | 0%nat => mkVar ["time"] (fun _ => 5%R) []
       | _ => mkVar [] (fun _ => (/ 10)%R) []
       end).

(** ** Where the exact numbers are numpy's

    numpy keeps the heights in an array of fixed-width integers as long as
    they fit, and subtracts an [int] from it in that width.  Below [2 ^ 30]
    in magnitude nothing wraps around, in 32 bits or in 64, so the exact
    integers of [distances] are the numbers numpy has, and the height chosen
    is printed in decimal. *)

Definition small (z : Z) : bool := (Z.abs z <? 2 ^ 30)%Z.

(** The value of [z] in a signed integer of [w] bits. *)
Definition wrap (w z : Z) : Z :=
  ((z + 2 ^ (w - 1)) mod 2 ^ w - 2 ^ (w - 1))%Z.

(** [np.abs(heights - to_height)] in integers of [w] bits *)
Definition fixed_width_distances (w : Z) (heights : list Z) (to_height : Z)
  : list Z :=
  map (fun h => wrap w (Z.abs (wrap w (wrap w h - wrap w to_height))))
    heights.

(** An [int] that fits, or a finite [float]. *)
Definition ordinary (x : Py.number) : bool :=
  match x with
  | Py.PyInt z => small z
  | Py.PyFloat _ => true
  end.

(** The scan, if it returns, and [to_height] stay in small integers. *)
Definition exact_scan (ds : Dataset) (to_height : Py.number) : bool :=
  match to_height with
  | Py.PyInt z =>
      small z &&
      match scan_heights (keys ds) with
      | Py.Ok heights => forallb small heights
      | Py.Raise _ => true
      end
  | Py.PyFloat _ => false
  end.


(** ** The special values of floating point arithmetic

    The elements numpy computes with are IEEE 754 doubles.  [SpecialValues]
    names the classes of elements that matter when [roughness] is zero,
    negative or equal to a height, and [IeeeLaws] states what division,
    multiplication and the logarithm of IEEE 754 do on them. *)

Record SpecialValues (F : Type) : Type := mkSpecialValues {
  is_nan : F -> Prop;
  is_inf : F -> Prop;
  is_zero : F -> Prop;
  is_positive : F -> Prop;
  is_negative : F -> Prop
}.
Arguments is_nan {F} _ _.
Arguments is_inf {F} _ _.
Arguments is_zero {F} _ _.
Arguments is_positive {F} _ _.
Arguments is_negative {F} _ _.

(** [is_positive]: finite and above zero; [is_negative]: below zero, minus
    infinity included; [is_zero]: a zero of either sign; [is_inf]: an
    infinity of either sign. *)
Record IeeeLaws {F : Type} (RT : Runtime F) (SV : SpecialValues F)
  : Prop := mkIeeeLaws {
  ieee_div_positive_zero :
    forall x y, is_positive SV x -> is_zero SV y -> is_inf SV (div x y);
  ieee_div_positive_negative :
    forall x y, is_positive SV x -> is_negative SV y ->
                is_negative SV (div x y) \/ is_zero SV (div x y);
  ieee_log_div_self :
    forall x, is_positive SV x -> is_zero SV (log (div x x));
  ieee_div_zero :
    forall x y, is_zero SV y -> is_inf SV (div x y) \/ is_nan SV (div x y);
  ieee_div_inf_inf :
    forall x y, is_inf SV x -> is_inf SV y -> is_nan SV (div x y);
  ieee_div_nan_left : forall x y, is_nan SV x -> is_nan SV (div x y);
  ieee_div_nan_right : forall x y, is_nan SV y -> is_nan SV (div x y);
  ieee_log_zero : forall x, is_zero SV x -> is_inf SV (log x);
  ieee_log_negative : forall x, is_negative SV x -> is_nan SV (log x);
  ieee_log_inf :
    forall x, is_inf SV x -> is_inf SV (log x) \/ is_nan SV (log x);
  ieee_mul_inf :
    forall x y, is_inf SV y -> is_inf SV (mul x y) \/ is_nan SV (mul x y);
  ieee_mul_nan : forall x y, is_nan SV y -> is_nan SV (mul x y)
}.

(** The value line 81 computes at one grid point from the wind speed [w] and
    the roughness [z]. *)
Definition log_law {F : Type} `{Runtime F} (to_height : Py.number)
  (from_height : Z) (w z : F) : F :=
  mul w (div (log (div (of_number to_height) z))
             (log (div (of_number (Py.PyInt from_height)) z))).

(** *** Real numbers with infinities and not-a-number

    Arithmetic without rounding and with one zero: enough to satisfy
    [IeeeLaws], and to compute the samples below. *)

Inductive xreal : Type :=
| Finite (x : R)
| PlusInf
| MinusInf
| NotANumber.

Definition xmul (a b : xreal) : xreal :=
  match a, b with
  | NotANumber, _ => NotANumber
  | _, NotANumber => NotANumber
  | Finite x, Finite y => Finite (x * y)
  | Finite x, PlusInf | PlusInf, Finite x =>
      if Req_dec_T x 0 then NotANumber
      else if Rlt_dec x 0 then MinusInf else PlusInf
  | Finite x, MinusInf | MinusInf, Finite x =>
      if Req_dec_T x 0 then NotANumber
      else if Rlt_dec x 0 then PlusInf else MinusInf
  | PlusInf, PlusInf | MinusInf, MinusInf => PlusInf
  | PlusInf, MinusInf | MinusInf, PlusInf => MinusInf
  end.

Definition xdiv (a b : xreal) : xreal :=
  match a, b with
  | NotANumber, _ => NotANumber
  | _, NotANumber => NotANumber
  | Finite x, Finite y =>
      if Req_dec_T y 0 then
        if Req_dec_T x 0 then NotANumber
        else if Rlt_dec x 0 then MinusInf else PlusInf
      else Finite (x / y)
  | Finite _, PlusInf | Finite _, MinusInf => Finite 0
  | PlusInf, Finite y => if Rlt_dec y 0 then MinusInf else PlusInf
  | MinusInf, Finite y => if Rlt_dec y 0 then PlusInf else MinusInf
  | PlusInf, PlusInf | PlusInf, MinusInf => NotANumber
  | MinusInf, PlusInf | MinusInf, MinusInf => NotANumber
  end.

Definition xlog (a : xreal) : xreal :=
  match a with
  | NotANumber => NotANumber
  | PlusInf => PlusInf
  | MinusInf => NotANumber
  | Finite x =>
      if Rlt_dec x 0 then NotANumber
      else if Req_dec_T x 0 then MinusInf else Finite (ln x)
  end.

#[export] Instance xreal_runtime : Runtime xreal := {|
  mul := xmul;
  div := xdiv;
  log := xlog;
  of_number := fun x => Finite (Q2R (Py.value x));
  keep_attrs := false;
  float_repr := exact_ratio
|}.

Definition xreal_special : SpecialValues xreal := {|
  is_nan := fun a => a = NotANumber;
  is_inf := fun a => a = PlusInf \/ a = MinusInf;
  is_zero := fun a => a = Finite 0;
  is_positive := fun a => exists x, a = Finite x /\ (0 < x)%R;
  is_negative := fun a => a = MinusInf \/ exists x, a = Finite x /\ (x < 0)%R
|}.

(** [wnd10m] and a [roughness] that is zero, minus one, ten or fifty along
    [x]. *)
Definition degenerate_roughness (ix : Index) : xreal :=
  match ix "x" with
  | 0%nat => Finite 0
  | 1%nat => Finite (-1)
  | 2%nat => Finite (Q2R (inject_Z 10))
  | _ => Finite (Q2R (inject_Z 50))
  end.

Definition degenerate_ds : Dataset :=
  [("wnd10m", 0%nat); ("roughness", 1%nat)].

Definition degenerate_store : Store xreal :=
  mkStore 2
    (fun l =>
       match l with
       | 0%nat => mkVar ["time"; "x"] (fun _ => Finite 5) []
       | _ => mkVar ["x"] degenerate_roughness []
       end).

(** * Properties *)

(** ** Parsing the digits of a height *)

Section Parsing.

Lemma digit_not_space (c : ascii) :
  Py.is_digit c = true -> Py.is_space c = false.
Proof.
  unfold Py.is_digit, Py.is_space. cbv zeta.
  intros Hd. apply andb_true_iff in Hd as [H1 H2].
  apply Nat.leb_le in H1. apply Nat.leb_le in H2.
  apply orb_false_iff; split.
  - apply andb_false_iff; right. apply Nat.leb_gt. lia.
  - apply Nat.eqb_neq. lia.
Qed.

Lemma digit_not_char (c : ascii) (n : nat) :
  Py.is_digit c = true -> (n < 48 \/ 57 < n) -> n < 256 ->
  Ascii.eqb c (ascii_of_nat n) = false.
Proof.
  unfold Py.is_digit. cbv zeta. intros Hd Hn Hb.
  apply andb_true_iff in Hd as [H1 H2].
  apply Nat.leb_le in H1. apply Nat.leb_le in H2.
  apply Ascii.eqb_neq. intros ->.
  rewrite nat_ascii_embedding in H1, H2 by exact Hb. lia.
Qed.

Lemma digits_from_all_digits (s : string) (acc : Z) :
  all_digits s = true ->
  Py.digits_from s false acc = Some (digits_value s acc, EmptyString).
Proof.
  revert acc. induction s as [|c s IH]; intros acc Hs; cbn in *.
  - reflexivity.
  - apply andb_true_iff in Hs as [Hc Hs]. rewrite Hc. now apply IH.
Qed.

(** [int] reads a non-empty string of digits as its decimal value. *)
Lemma int_of_str_digits (s : string) :
  s <> EmptyString -> all_digits s = true ->
  Py.int_of_str s = Some (digits_value s 0).
Proof.
  destruct s as [|c s]; [congruence|]. intros _ Hs.
  pose proof Hs as Hs'. cbn in Hs'.
  apply andb_true_iff in Hs' as [Hc _].
  unfold Py.int_of_str. cbn [Py.lstrip].
  rewrite (digit_not_space c Hc).
  change "+"%char with (ascii_of_nat 43).
  change "-"%char with (ascii_of_nat 45).
  rewrite !digit_not_char by (auto; lia).
  unfold Py.unsigned_literal. rewrite Hc.
  rewrite digits_from_all_digits by exact Hs.
  reflexivity.
Qed.

Lemma is_wnd_key_startswith (s : string) :
  is_wnd_key s = true -> Py.startswith s "wnd" = true.
Proof.
  unfold is_wnd_key. intros H.
  repeat (apply andb_true_iff in H as [H _]). exact H.
Qed.

Lemma is_wnd_key_height (s : string) :
  is_wnd_key s = true ->
  Py.int_of_str (Py.slice_3_m1 s) = Some (key_height s).
Proof.
  unfold is_wnd_key, key_height. intros H.
  apply andb_true_iff in H as [H Hd].
  apply andb_true_iff in H as [_ Hn].
  apply int_of_str_digits; [|exact Hd].
  apply negb_true_iff in Hn. now apply String.eqb_neq in Hn.
Qed.

(** When every name that starts with [wnd] is a wind speed key, the scan
    returns the heights of those keys, in the order of the dataset. *)
Lemma scan_heights_only_wnd_keys (names : list string) :
  forallb (fun s => implb (Py.startswith s "wnd") (is_wnd_key s)) names
  = true ->
  scan_heights names = Py.Ok (map key_height (filter is_wnd_key names)).
Proof.
  induction names as [|s names IH]; cbn [forallb scan_heights filter map].
  - reflexivity.
  - intros H. apply andb_true_iff in H as [Hs Hn].
    rewrite (IH Hn). destruct (Py.startswith s "wnd") eqn:Hp.
    + cbn in Hs. rewrite Hs. rewrite (is_wnd_key_height s Hs). reflexivity.
    + destruct (is_wnd_key s) eqn:Hk; [|reflexivity].
      apply is_wnd_key_startswith in Hk. congruence.
Qed.

(** A name whose digits [int] refuses stops the scan with a [ValueError]. *)
Lemma scan_heights_bad_literal (names : list string) (s : string) :
  In s names -> Py.startswith s "wnd" = true ->
  Py.int_of_str (Py.slice_3_m1 s) = None ->
  exists lit, scan_heights names = Py.Raise (Py.ValueError lit).
Proof.
  induction names as [|s0 names IH]; [intros []|].
  intros [->|Hin] Hp Hn; cbn [scan_heights].
  - rewrite Hp, Hn. eauto.
  - destruct (IH Hin Hp Hn) as [lit Hl]. rewrite Hl.
    destruct (Py.startswith s0 "wnd"); [|eauto].
    destruct (Py.int_of_str (Py.slice_3_m1 s0)); eauto.
Qed.

(** Without a name that starts with [wnd] the scan finds nothing. *)
Lemma scan_heights_no_wnd (names : list string) :
  forallb (fun s => negb (Py.startswith s "wnd")) names = true ->
  scan_heights names = Py.Ok [].
Proof.
  induction names as [|s names IH]; cbn [forallb scan_heights].
  - reflexivity.
  - intros H. apply andb_true_iff in H as [Hs Hn].
    apply negb_true_iff in Hs. rewrite Hs. now apply IH.
Qed.

End Parsing.

(** ** The built-ins on sample inputs *)

Section BuiltinExamples.

Example format_d_50 : Py.format_d 50 = "50".
Proof. reflexivity. Qed.

Example format_d_negative : Py.format_d (-7) = "-7".
Proof. reflexivity. Qed.

Example int_truncates : Py.int (Py.PyFloat (-81 # 2)) = (-40)%Z.
Proof. reflexivity. Qed.

Example slice_wnd10m : Py.slice_3_m1 "wnd10m" = "10".
Proof. reflexivity. Qed.

Example slice_wnd : Py.slice_3_m1 "wnd" = "".
Proof. reflexivity. Qed.

Example int_of_str_10 : Py.int_of_str "10" = Some 10%Z.
Proof. reflexivity. Qed.

Example int_of_str_leading_zero : Py.int_of_str "010" = Some 10%Z.
Proof. reflexivity. Qed.

Example int_of_str_signed : Py.int_of_str " +1_0 " = Some 10%Z.
Proof. reflexivity. Qed.

Example int_of_str_negative : Py.int_of_str "-5" = Some (-5)%Z.
Proof. reflexivity. Qed.

Example int_of_str_empty : Py.int_of_str "" = None.
Proof. reflexivity. Qed.

Example int_of_str_double_underscore : Py.int_of_str "1__0" = None.
Proof. reflexivity. Qed.

Example int_of_str_gus : Py.int_of_str "_gus" = None.
Proof. reflexivity. Qed.

Example wnd_name_40 : wnd_name 40 = "wnd40m".
Proof. reflexivity. Qed.

Example is_wnd_key_samples :
  map is_wnd_key ["wnd10m"; "wnd_gust"; "wnd10"; "wndm"; "roughness"]
  = [true; false; false; false; false].
Proof. reflexivity. Qed.

End BuiltinExamples.

(** ** The index of the least element *)

Section Argmin.

Lemma argmin_from_least (full : list Q) :
  forall (l pre : list Q) (best : Q) (best_i : nat),
    full = pre ++ l ->
    best_i < List.length pre ->
    nth best_i full 0%Q = best ->
    (forall x, In x pre -> (best <= x)%Q) ->
    let r := argmin_from l (List.length pre) best best_i in
    r < List.length full /\ forall x, In x full -> (nth r full 0%Q <= x)%Q.
Proof.
  induction l as [|y l IH]; intros pre best best_i Hfull Hi Hbest Hpre.
  - cbn. rewrite app_nil_r in Hfull. subst full. split; [exact Hi|].
    intros x Hx. rewrite Hbest. now apply Hpre.
  - cbn [argmin_from].
    assert (Hfull' : full = (pre ++ [y]) ++ l)
      by (rewrite <- app_assoc; exact Hfull).
    assert (Hlen : List.length (pre ++ [y]) = S (List.length pre))
      by (rewrite length_app; cbn; lia).
    destruct (Qle_bool best y) eqn:Hle.
    + rewrite <- Hlen. apply IH; auto.
      * rewrite Hlen. lia.
      * intros x Hx. apply in_app_or in Hx as [Hx|[<-|[]]]; auto.
        now apply Qle_bool_iff.
    + rewrite <- Hlen. apply IH; auto.
      * rewrite Hlen. lia.
      * rewrite Hfull. rewrite app_nth2 by lia.
        now rewrite Nat.sub_diag.
      * assert (Hlt : (y < best)%Q).
        { apply Qnot_le_lt. intros Hc. apply Qle_bool_iff in Hc. congruence. }
        intros x Hx. apply in_app_or in Hx as [Hx|[<-|[]]].
        -- apply Qle_trans with best; [now apply Qlt_le_weak|now apply Hpre].
        -- apply Qle_refl.
Qed.

(** [argmin] is an index of the list, and no element is below the one
    there. *)
Lemma argmin_least (l : list Q) :
  l <> [] ->
  argmin l < List.length l /\
  forall x, In x l -> (nth (argmin l) l 0%Q <= x)%Q.
Proof.
  destruct l as [|y l]; [congruence|]. intros _.
  unfold argmin.
  apply (argmin_from_least (y :: l) l [y] y 0); cbn; auto.
  intros x [<-|[]]. apply Qle_refl.
Qed.

(** The height chosen among [heights] is one of them, and none is closer to
    [to_height]. *)
Lemma closest_of_heights (heights : list Z) (to_height : Py.number) :
  heights <> [] ->
  let h := nth (argmin (distances heights to_height)) heights 0%Z in
  In h heights /\
  forall h', In h' heights ->
    (Qabs (inject_Z h - Py.value to_height)
     <= Qabs (inject_Z h' - Py.value to_height))%Q.
Proof.
  intros Hne h.
  assert (Hd : distances heights to_height <> []).
  { unfold distances. destruct heights; [congruence|discriminate]. }
  destruct (argmin_least _ Hd) as [Hlt Hmin].
  unfold distances in Hlt at 2. rewrite length_map in Hlt.
  split; [now apply nth_In|].
  intros h' Hh'.
  specialize (Hmin (Qabs (inject_Z h' - Py.value to_height))).
  unfold distances in Hmin at 2 3.
  rewrite (nth_indep _ 0%Q
             (Qabs (inject_Z 0%Z - Py.value to_height))) in Hmin
    by (rewrite length_map; exact Hlt).
  rewrite (map_nth (fun h => Qabs (inject_Z h - Py.value to_height)))
    in Hmin.
  apply Hmin. apply in_map_iff. eauto.
Qed.

End Argmin.

(** ** Computations on the store *)

Section Store.
Context {F : Type} `{RT : Runtime F}.

Lemma preserves_refl (st : Store F) : preserves st st.
Proof. split; auto. Qed.

Lemma preserves_trans (st1 st2 st3 : Store F) :
  preserves st1 st2 -> preserves st2 st3 -> preserves st1 st3.
Proof.
  intros [H1 H2] [H3 H4]; split; [lia|].
  intros l Hl. rewrite H4 by lia. now apply H2.
Qed.

Lemma fresh_array_preserves (st : Store F) v name r (st' : Store F) :
  fresh_array st v name r st' -> preserves st st'.
Proof. intros (_ & Hn & _ & Hf). split; [lia|exact Hf]. Qed.

Lemma ensures_bind {A B : Type} (m : M F A) (k : A -> M F B) (st : Store F) Q :
  ensures m st (fun a st' => ensures (k a) st' Q) -> ensures (bind m k) st Q.
Proof.
  intros (a & st' & Hm & b & st'' & Hk & HQ).
  exists b, st''. unfold bind. rewrite Hm. auto.
Qed.

Lemma ensures_conseq {A : Type} (m : M F A) (st : Store F) (Q Q' : A -> Store F -> Prop) :
  ensures m st Q -> (forall a st', Q a st' -> Q' a st') -> ensures m st Q'.
Proof. intros (a & st' & Hm & HQ) H. exists a, st'. auto. Qed.

Lemma ensures_ret {A : Type} (a : A) (st : Store F) (Q : A -> Store F -> Prop) :
  Q a st -> ensures (ret a) st Q.
Proof. intros HQ. exists a, st. auto. Qed.

Lemma ensures_getitem ds name l (st : Store F) :
  lookup ds name = Some l ->
  ensures (getitem ds name) st
    (fun r st' => r = mkDataArray (Some name) l /\ st' = st).
Proof.
  intros Hl. unfold getitem. rewrite Hl. now apply ensures_ret.
Qed.

Lemma alloc_fresh (v : VarObj F) name (st : Store F) :
  fresh_array st v name (mkDataArray name (next st)) (snd (alloc v st)).
Proof.
  unfold fresh_array, alloc. cbn. rewrite Nat.eqb_refl.
  repeat split. intros l Hl.
  destruct (Nat.eqb_spec l (next st)); [lia|reflexivity].
Qed.

Lemma ensures_scalar_div (x : F) (a : DataArray) (st : Store F) :
  ensures (scalar_div x a) st
    (fresh_array st
       (mkVar (v_dims (cell st (da_var a)))
          (fun ix => div x (v_data (cell st (da_var a)) ix))
          (kept_attrs (v_attrs (cell st (da_var a)))))
       (da_name a)).
Proof. eexists _, _. split; [reflexivity|apply alloc_fresh]. Qed.

Lemma ensures_np_log (a : DataArray) (st : Store F) :
  ensures (np_log a) st
    (fresh_array st
       (mkVar (v_dims (cell st (da_var a)))
          (fun ix => log (v_data (cell st (da_var a)) ix))
          (kept_attrs (v_attrs (cell st (da_var a)))))
       (da_name a)).
Proof. eexists _, _. split; [reflexivity|apply alloc_fresh]. Qed.

Lemma ensures_binary_op (op : F -> F -> F) (a b : DataArray) (st : Store F) :
  ensures (binary_op op a b) st
    (fresh_array st
       (mkVar
          (broadcast_dims (v_dims (cell st (da_var a)))
             (v_dims (cell st (da_var b))))
          (fun ix =>
             op (v_data (cell st (da_var a)) ix)
                (v_data (cell st (da_var b)) ix))
          (kept_attrs (v_attrs (cell st (da_var a)))))
       (result_name (da_name a) (da_name b))).
Proof. eexists _, _. split; [reflexivity|apply alloc_fresh]. Qed.

(** The update changes the attributes of the object [a] wraps, and nothing
    else. *)
Lemma ensures_attrs_update (a : DataArray) kvs (st : Store F) :
  ensures (attrs_update a kvs) st
    (fun _ st' =>
       next st' = next st /\
       cell st' (da_var a)
       = mkVar (v_dims (cell st (da_var a))) (v_data (cell st (da_var a)))
           (dict_update (v_attrs (cell st (da_var a))) kvs) /\
       forall l, l <> da_var a -> cell st' l = cell st l).
Proof.
  eexists _, _. split; [reflexivity|]. cbn. rewrite Nat.eqb_refl.
  repeat split. intros l Hl.
  destruct (Nat.eqb_spec l (da_var a)); [contradiction|reflexivity].
Qed.

Lemma ensures_lift_ok {A : Type} (r : Py.result A) (a : A) (st : Store F)
  (Q : A -> Store F -> Prop) :
  r = Py.Ok a -> Q a st -> ensures (lift r) st Q.
Proof. intros -> HQ. exists a, st. auto. Qed.




Lemma filter_none {A : Type} (f : A -> bool) (l : list A) :
  (forall x, In x l -> f x = false) -> filter f l = [].
Proof.
  induction l as [|x l IH]; cbn; intros H; [reflexivity|].
  rewrite (H x) by auto. apply IH. auto.
Qed.

Lemma mem_dim_In (d : string) (l : list string) :
  mem_dim d l = true <-> In d l.
Proof.
  unfold mem_dim. rewrite existsb_exists. split.
  - intros (x & Hx & He). apply String.eqb_eq in He. now subst.
  - intros Hd. exists d. split; [exact Hd|apply String.eqb_refl].
Qed.

(** The dimensions of [a op b] are those of [a] and those of [b]. *)
Lemma In_broadcast_dims (d : string) (d1 d2 : list string) :
  In d (broadcast_dims d1 d2) <-> In d d1 \/ In d d2.
Proof.
  unfold broadcast_dims. rewrite in_app_iff, filter_In. split.
  - intros [H|[H _]]; auto.
  - intros [H|H]; [now left|].
    destruct (mem_dim d d1) eqn:E.
    + left. now apply mem_dim_In.
    + right. split; [exact H|]. now apply negb_true_iff.
Qed.

(** An array that has every dimension of the other adds none. *)
Lemma broadcast_dims_self (d : list string) : broadcast_dims d d = d.
Proof.
  unfold broadcast_dims. rewrite filter_none; [apply app_nil_r|].
  intros x Hx. apply negb_false_iff. unfold mem_dim.
  apply existsb_exists. exists x. split; [exact Hx|apply String.eqb_refl].
Qed.

End Store.

(** ** The paths of the function *)

Section Paths.
Context {F : Type} `{RT : Runtime F}.

(** The fast lane returns the wrapper of the stored variable and touches
    nothing. *)
Lemma fast_lane ds (t : Py.number) fh (st : Store F) l :
  lookup ds (wnd_name (Py.int t)) = Some l ->
  extrapolate_wind_speed ds t fh st
  = (Py.Ok (mkDataArray (Some (wnd_name (Py.int t))) l), st).
Proof.
  intros Hl. unfold extrapolate_wind_speed, contains, getitem.
  rewrite Hl. reflexivity.
Qed.

Lemma contains_false ds name : contains ds name = false -> lookup ds name = None.
Proof. unfold contains. destruct (lookup ds name); congruence. Qed.

Lemma contains_true ds name :
  contains ds name = true -> exists l, lookup ds name = Some l.
Proof. unfold contains. destruct (lookup ds name); eauto; congruence. Qed.

(** A failure to find the source height ends the call. *)
Lemma no_source_height ds (t : Py.number) fh (st : Store F) e :
  contains ds (wnd_name (Py.int t)) = false ->
  source_height ds t fh = Py.Raise e ->
  extrapolate_wind_speed ds t fh st = (Py.Raise e, st).
Proof.
  intros Hc Hs. unfold extrapolate_wind_speed. rewrite Hc.
  unfold bind, lift. rewrite Hs. reflexivity.
Qed.

Lemma no_source_variable ds (t : Py.number) fh (st : Store F) h :
  contains ds (wnd_name (Py.int t)) = false ->
  source_height ds t fh = Py.Ok h ->
  lookup ds (wnd_name h) = None ->
  extrapolate_wind_speed ds t fh st
  = (Py.Raise (Py.KeyError (wnd_name h)), st).
Proof.
  intros Hc Hs Hl. unfold extrapolate_wind_speed. rewrite Hc.
  unfold bind, lift, getitem. rewrite Hs, Hl. reflexivity.
Qed.

Lemma no_roughness ds (t : Py.number) fh (st : Store F) h lw :
  contains ds (wnd_name (Py.int t)) = false ->
  source_height ds t fh = Py.Ok h ->
  lookup ds (wnd_name h) = Some lw ->
  lookup ds "roughness" = None ->
  extrapolate_wind_speed ds t fh st
  = (Py.Raise (Py.KeyError "roughness"), st).
Proof.
  intros Hc Hs Hl Hr. unfold extrapolate_wind_speed. rewrite Hc.
  unfold bind, lift, getitem. rewrite Hs, Hl, Hr. reflexivity.
Qed.

(** The array the extrapolation builds, in terms of the store the call
    started from. *)
Lemma extrapolation_path ds (t : Py.number) fh (st : Store F) h lw lr :
  contains ds (wnd_name (Py.int t)) = false ->
  source_height ds t fh = Py.Ok h ->
  lookup ds (wnd_name h) = Some lw ->
  lookup ds "roughness" = Some lr ->
  ensures (extrapolate_wind_speed ds t fh) st
    (fun r st' =>
       da_name r = Some (wnd_name (Py.int t)) /\
       next st <= da_var r /\
       preserves st st' /\
       (exists base,
           v_attrs (cell st' (da_var r))
           = dict_update base
               [("long name", long_name t h); ("units", "m s**-1")]) /\
       (lw < next st -> lr < next st ->
        v_dims (cell st' (da_var r))
        = broadcast_dims (v_dims (cell st lw)) (v_dims (cell st lr)) /\
        (forall ix,
            v_data (cell st' (da_var r)) ix
            = mul (v_data (cell st lw) ix)
                (div
                   (log (div (of_number t) (v_data (cell st lr) ix)))
                   (log (div (of_number (Py.PyInt h))
                           (v_data (cell st lr) ix))))) /\
        v_attrs (cell st' (da_var r))
        = dict_update (kept_attrs (v_attrs (cell st lw)))
            [("long name", long_name t h); ("units", "m s**-1")])).
Proof.
  intros Hc Hs Hw Hr. unfold extrapolate_wind_speed. rewrite Hc.
  apply ensures_bind. eapply ensures_lift_ok; [exact Hs|]. cbv beta zeta.
  apply ensures_bind. eapply ensures_conseq; [apply ensures_getitem, Hw|].
  intros ? ? [-> ->].
  apply ensures_bind. eapply ensures_conseq; [apply ensures_getitem, Hr|].
  intros ? ? [-> ->].
  apply ensures_bind. eapply ensures_conseq; [apply ensures_scalar_div|].
  intros ? st1 (-> & Hn1 & Hc1 & Hf1).
  apply ensures_bind. eapply ensures_conseq; [apply ensures_np_log|].
  intros ? st2 (-> & Hn2 & Hc2 & Hf2).
  apply ensures_bind. eapply ensures_conseq; [apply ensures_getitem, Hr|].
  intros ? ? [-> ->].
  apply ensures_bind. eapply ensures_conseq; [apply ensures_scalar_div|].
  intros ? st3 (-> & Hn3 & Hc3 & Hf3).
  apply ensures_bind. eapply ensures_conseq; [apply ensures_np_log|].
  intros ? st4 (-> & Hn4 & Hc4 & Hf4).
  apply ensures_bind. eapply ensures_conseq; [apply ensures_binary_op|].
  intros ? st5 (-> & Hn5 & Hc5 & Hf5).
  apply ensures_bind. eapply ensures_conseq; [apply ensures_binary_op|].
  intros ? st6 (-> & Hn6 & Hc6 & Hf6).
  apply ensures_bind. eapply ensures_conseq; [apply ensures_attrs_update|].
  intros _ st7 (Hn7 & Hc7 & Hf7).
  apply ensures_ret. cbn [da_name da_var] in *.
  split; [reflexivity|]. split; [lia|]. split.
  { split; [lia|]. intros l Hl.
    rewrite Hf7, Hf6, Hf5, Hf4, Hf3, Hf2, Hf1 by lia. reflexivity. }
  rewrite Hc7, Hc6. cbn [v_dims v_data v_attrs]. split; [eauto|].
  intros Hlw Hlr.
  rewrite Hc5. cbn [v_dims v_data v_attrs].
  rewrite (Hf4 (next st1)), (Hf3 (next st1)), Hc2, Hc4 by lia.
  cbn [v_dims v_data v_attrs].
  rewrite Hc1, Hc3. cbn [v_dims v_data v_attrs].
  rewrite (Hf5 lw), (Hf4 lw), (Hf3 lw), (Hf2 lw), (Hf1 lw) by lia.
  rewrite (Hf2 lr), (Hf1 lr) by lia.
  rewrite broadcast_dims_self. auto.
Qed.

End Paths.

(** ** What a call can do *)

Section Calls.
Context {F : Type} `{RT : Runtime F}.

Lemma ensures_run {A : Type} (m : M F A) (st st' : Store F) (a : A)
  (Q : A -> Store F -> Prop) :
  ensures m st Q -> m st = (Py.Ok a, st') -> Q a st'.
Proof.
  intros (a0 & st0 & Hm & HQ) Hrun. rewrite Hm in Hrun.
  now inversion Hrun; subst.
Qed.

Lemma lookup_In_keys ds name l :
  lookup ds name = Some l -> In name (keys ds).
Proof.
  induction ds as [|[k l0] ds IH]; cbn; [discriminate|].
  destruct (String.eqb_spec k name); auto.
Qed.

Lemma lookup_well_stored ds (st : Store F) name l :
  well_stored ds st = true -> lookup ds name = Some l -> l < next st.
Proof.
  unfold well_stored. induction ds as [|[k l0] ds IH]; cbn; [discriminate|].
  intros H Hl. apply andb_true_iff in H as [H0 H].
  destruct (String.eqb k name).
  - inversion Hl; subst. now apply Nat.ltb_lt.
  - now apply IH.
Qed.

Lemma wnd_name_startswith (h : Z) : Py.startswith (wnd_name h) "wnd" = true.
Proof.
  unfold wnd_name, Py.startswith. cbn.
  now destruct (Py.format_d h ++ "m")%string.
Qed.

(** Every object the store held before a call is the same after it,
    whatever the call does. *)
Lemma call_preserves ds (t : Py.number) fh (st : Store F) :
  preserves st (final_store (extrapolate_wind_speed ds t fh) st).
Proof.
  unfold final_store.
  destruct (contains ds (wnd_name (Py.int t))) eqn:Hc.
  { apply contains_true in Hc as [l Hl].
    rewrite (fast_lane ds t fh st l Hl). apply preserves_refl. }
  destruct (source_height ds t fh) as [h|e] eqn:Hs.
  2:{ rewrite (no_source_height ds t fh st e Hc Hs). apply preserves_refl. }
  destruct (lookup ds (wnd_name h)) as [lw|] eqn:Hw.
  2:{ rewrite (no_source_variable ds t fh st h Hc Hs Hw).
      apply preserves_refl. }
  destruct (lookup ds "roughness") as [lr|] eqn:Hr.
  2:{ rewrite (no_roughness ds t fh st h lw Hc Hs Hw Hr).
      apply preserves_refl. }
  destruct (extrapolation_path ds t fh st h lw lr Hc Hs Hw Hr)
    as (r & st' & Hrun & _ & _ & Hp & _).
  rewrite Hrun. exact Hp.
Qed.

(** A call that returns took the fast lane or extrapolated. *)
Lemma call_returns ds (t : Py.number) fh (st st' : Store F) r :
  extrapolate_wind_speed ds t fh st = (Py.Ok r, st') ->
  (exists l, lookup ds (wnd_name (Py.int t)) = Some l /\
             r = mkDataArray (Some (wnd_name (Py.int t))) l /\ st' = st)
  \/
  (contains ds (wnd_name (Py.int t)) = false /\
   exists h lw lr,
     source_height ds t fh = Py.Ok h /\
     lookup ds (wnd_name h) = Some lw /\
     lookup ds "roughness" = Some lr).
Proof.
  intros Hrun.
  destruct (contains ds (wnd_name (Py.int t))) eqn:Hc.
  { left. apply contains_true in Hc as [l Hl]. exists l.
    rewrite (fast_lane ds t fh st l Hl) in Hrun.
    inversion Hrun; subst. auto. }
  right. split; [reflexivity|].
  destruct (source_height ds t fh) as [h|e] eqn:Hs.
  2:{ rewrite (no_source_height ds t fh st e Hc Hs) in Hrun. discriminate. }
  destruct (lookup ds (wnd_name h)) as [lw|] eqn:Hw.
  2:{ rewrite (no_source_variable ds t fh st h Hc Hs Hw) in Hrun.
      discriminate. }
  destruct (lookup ds "roughness") as [lr|] eqn:Hr.
  2:{ rewrite (no_roughness ds t fh st h lw Hc Hs Hw Hr) in Hrun.
      discriminate. }
  eauto 6.
Qed.

(** Among the keys the docstring describes, the scan picks a height that is
    closest to [to_height], in the exact numbers of [distances]. *)
Lemma closest_height_minimal ds (t : Py.number) :
  only_wnd_keys ds = true ->
  wnd_heights ds <> [] ->
  exists h,
    closest_height ds t = Py.Ok h /\
    In h (wnd_heights ds) /\
    forall h', In h' (wnd_heights ds) ->
      (Qabs (inject_Z h - Py.value t) <= Qabs (inject_Z h' - Py.value t))%Q.
Proof.
  intros Hk Hne. unfold closest_height.
  rewrite (scan_heights_only_wnd_keys (keys ds) Hk).
  fold (wnd_heights ds).
  destruct (wnd_heights ds) as [|h0 hs] eqn:E; [congruence|].
  cbn [List.length Nat.eqb].
  eexists. split; [reflexivity|].
  now apply closest_of_heights.
Qed.

End Calls.

(** ** Special values through the logarithmic law *)

Section Degenerate.
Context {F : Type} `{RT : Runtime F} (SV : SpecialValues F).
Hypothesis L : IeeeLaws RT SV.

Lemma log_of_degenerate_quotient (x z : F) :
  is_positive SV x ->
  is_zero SV z \/ is_negative SV z ->
  is_inf SV (log (div x z)) \/ is_nan SV (log (div x z)).
Proof.
  intros Hx [Hz|Hz].
  - apply (ieee_log_inf _ _ L). now apply (ieee_div_positive_zero _ _ L).
  - destruct (ieee_div_positive_negative _ _ L x z Hx Hz) as [Hn|Hn].
    + right. now apply (ieee_log_negative _ _ L).
    + left. now apply (ieee_log_zero _ _ L).
Qed.

Lemma div_of_inf_or_nan (a b : F) :
  is_inf SV a \/ is_nan SV a ->
  is_inf SV b \/ is_nan SV b ->
  is_nan SV (div a b).
Proof.
  intros [Ha|Ha] [Hb|Hb].
  - now apply (ieee_div_inf_inf _ _ L).
  - now apply (ieee_div_nan_right _ _ L).
  - now apply (ieee_div_nan_left _ _ L).
  - now apply (ieee_div_nan_left _ _ L).
Qed.

(** What line 81 gives at a grid point where [roughness] is degenerate. *)
Lemma log_law_degenerate (t : Py.number) (h : Z) (w z : F) :
  is_positive SV (of_number t) ->
  is_positive SV (of_number (Py.PyInt h)) ->
  (is_zero SV z \/ is_negative SV z ->
   is_nan SV
     (mul w (div (log (div (of_number t) z))
                 (log (div (of_number (Py.PyInt h)) z))))) /\
  (z = of_number (Py.PyInt h) ->
   is_inf SV
     (mul w (div (log (div (of_number t) z))
                 (log (div (of_number (Py.PyInt h)) z))))
   \/
   is_nan SV
     (mul w (div (log (div (of_number t) z))
                 (log (div (of_number (Py.PyInt h)) z))))) /\
  (z = of_number t ->
   exists num den,
     is_zero SV num /\
     mul w (div (log (div (of_number t) z))
                (log (div (of_number (Py.PyInt h)) z)))
     = mul w (div num den)).
Proof.
  intros Ht Hh. split; [|split].
  - intros Hz. apply (ieee_mul_nan _ _ L).
    apply div_of_inf_or_nan; now apply log_of_degenerate_quotient.
  - intros ->.
    pose proof (ieee_log_div_self _ _ L _ Hh) as H0.
    destruct (ieee_div_zero _ _ L (log (div (of_number t)
                                          (of_number (Py.PyInt h)))) _ H0)
      as [Hq|Hq].
    + now apply (ieee_mul_inf _ _ L).
    + right. now apply (ieee_mul_nan _ _ L).
  - intros ->. eexists _, _. split; [|reflexivity].
    now apply (ieee_log_div_self _ _ L).
Qed.

End Degenerate.

(** * The claims of the specification *)

Section Claims.
Context {F : Type} `{RT : Runtime F}.

(** C1. When [wnd<to_height>m] is not in the dataset and the source variable
    and [roughness] are, the call returns an array whose value at every grid
    point is the source wind speed times the quotient of [log (to_height /
    roughness)] by [log (from_height / roughness)], each taken at that grid
    point.  Its dimensions are those of the source followed by those only
    [roughness] has; [roughness] is read at the positions of its own
    dimensions, so it is repeated along the others, and the result reads the
    positions of its dimensions only. *)
Theorem extrapolate_log_law ds (t : Py.number) fh (st : Store F) h lw lr :
  contains ds (wnd_name (Py.int t)) = false ->
  source_height ds t fh = Py.Ok h ->
  lookup ds (wnd_name h) = Some lw ->
  lookup ds "roughness" = Some lr ->
  well_stored ds st = true ->
  exists r st',
    extrapolate_wind_speed ds t fh st = (Py.Ok r, st') /\
    dims st' r = broadcast_dims (v_dims (cell st lw)) (v_dims (cell st lr)) /\
    (forall ix,
        values st' r ix
        = mul (v_data (cell st lw) ix)
            (div (log (div (of_number t) (v_data (cell st lr) ix)))
                 (log (div (of_number (Py.PyInt h))
                         (v_data (cell st lr) ix))))) /\
    (reads_only (v_dims (cell st lw)) (v_data (cell st lw)) ->
     reads_only (v_dims (cell st lr)) (v_data (cell st lr)) ->
     reads_only (dims st' r) (values st' r)).
Proof.
  intros Hc Hs Hw Hr Hst.
  destruct (extrapolation_path ds t fh st h lw lr Hc Hs Hw Hr)
    as (r & st' & Hrun & _ & _ & _ & _ & Hval).
  destruct Hval as (Hd & Hv & _);
    try (eapply lookup_well_stored; eassumption).
  exists r, st'. unfold dims, values.
  split; [exact Hrun|]. split; [exact Hd|]. split; [exact Hv|].
  intros Rw Rr ix ix' Hix. rewrite !Hv. rewrite Hd in Hix.
  rewrite (Rw ix ix'), (Rr ix ix'); [reflexivity| |];
    intros d Hin; apply Hix, In_broadcast_dims; auto.
Qed.


(** C4, as amended. In a dataset without any variable whose name starts with
    [wnd], a call that leaves [from_height] out raises [AssertionError] with
    the message [Wind speed is not in dataset], and leaves the store as it
    was. *)
Theorem no_wind_speed_assertion ds (t : Py.number) (st : Store F) :
  forallb (fun s => negb (Py.startswith s "wnd")) (keys ds) = true ->
  extrapolate_wind_speed ds t None st
  = (Py.Raise (Py.AssertionError "Wind speed is not in dataset"), st).
Proof.
  intros Hk. apply no_source_height.
  - destruct (contains ds (wnd_name (Py.int t))) eqn:Hc; [|reflexivity].
    apply contains_true in Hc as [l Hl]. apply lookup_In_keys in Hl.
    rewrite forallb_forall in Hk. specialize (Hk _ Hl).
    now rewrite wnd_name_startswith in Hk.
  - cbn. unfold closest_height. now rewrite scan_heights_no_wnd.
Qed.


(** C6. The array a call returns is named [wnd<int(to_height)>m]. *)
Theorem returned_name ds (t : Py.number) fh (st st' : Store F) r :
  extrapolate_wind_speed ds t fh st = (Py.Ok r, st') ->
  da_name r = Some (wnd_name (Py.int t)).
Proof.
  intros Hrun.
  destruct (call_returns ds t fh st st' r Hrun)
    as [(l & Hl & -> & _)|(Hc & h & lw & lr & Hs & Hw & Hr)].
  { reflexivity. }
  now pose proof (ensures_run _ _ _ _ _
                    (extrapolation_path ds t fh st h lw lr Hc Hs Hw Hr) Hrun)
    as (Hn & _).
Qed.


(** C8, as amended. When [wnd<int(to_height)>m] is not in the dataset and the
    source height is given, or was found by the scan, the call raises
    [KeyError] if the source variable or [roughness] is missing: for the
    source variable if that is missing, for [roughness] otherwise.  The
    store is left as it was. *)
Theorem missing_variable_key_error ds (t : Py.number) fh h (st : Store F) :
  contains ds (wnd_name (Py.int t)) = false ->
  source_height ds t fh = Py.Ok h ->
  lookup ds (wnd_name h) = None \/ lookup ds "roughness" = None ->
  extrapolate_wind_speed ds t fh st
  = (Py.Raise
       (Py.KeyError
          (match lookup ds (wnd_name h) with
           | None => wnd_name h
           | Some _ => "roughness"
           end)), st).
Proof.
  intros Hc Hs Hmiss.
  destruct (lookup ds (wnd_name h)) as [lw|] eqn:Hw.
  - destruct Hmiss as [Hm|Hm]; [discriminate|].
    now apply no_roughness with h lw.
  - now apply no_source_variable.
Qed.

(** C9. Whether it returns or raises, a call leaves every variable of the
    dataset as it was: the object stored for each name has the same
    dimensions, values and attributes after the call as before. *)
Theorem dataset_not_mutated ds (t : Py.number) fh (st : Store F) name l :
  well_stored ds st = true ->
  lookup ds name = Some l ->
  cell (final_store (extrapolate_wind_speed ds t fh) st) l = cell st l.
Proof.
  intros Hst Hl.
  destruct (call_preserves ds t fh st) as [_ Hp].
  apply Hp. eapply lookup_well_stored; eassumption.
Qed.

(** C10, as amended. When [from_height] is left out and
    [wnd<int(to_height)>m] is not in the dataset, every name that starts with
    [wnd] is a candidate and the characters between index 3 and the last one
    are given to [int]: a name for which [int] refuses them, such as
    [wnd_gust], makes the call raise [ValueError], and [wnd10] is read as
    height 1. *)
Theorem scan_raises_value_error ds (t : Py.number) (st : Store F) s :
  contains ds (wnd_name (Py.int t)) = false ->
  In s (keys ds) ->
  Py.startswith s "wnd" = true ->
  Py.int_of_str (Py.slice_3_m1 s) = None ->
  (exists lit,
      extrapolate_wind_speed ds t None st
      = (Py.Raise (Py.ValueError lit), st)) /\
  Py.int_of_str (Py.slice_3_m1 "wnd_gust") = None /\
  scan_heights ["wnd10"] = Py.Ok [1%Z].
Proof.
  intros Hc Hin Hp Hn. split; [|split; reflexivity].
  destruct (scan_heights_bad_literal (keys ds) s Hin Hp Hn) as [lit Hl].
  exists lit. apply no_source_height; [exact Hc|].
  cbn. unfold closest_height. now rewrite Hl.
Qed.

End Claims.

(** * The claims on the sample datasets *)

Section Samples.

Example closest_height_sample :
  closest_height sample_ds (Py.PyInt 40) = Py.Ok 50%Z.
Proof. reflexivity. Qed.

Example closest_height_float :
  closest_height sample_ds (Py.PyFloat (59 # 2)) = Py.Ok 10%Z.
Proof. reflexivity. Qed.

Lemma Q2R_inject_Z (z : Z) : Q2R (inject_Z z) = IZR z.
Proof. unfold Q2R. cbn. rewrite Rinv_1. apply Rmult_1_r. Qed.

(** Over the reals the product with the quotient of logarithms is the
    quotient the specification writes. *)
Lemma real_grouping (w a b : R) : (w * (a / b) = w * a / b)%R.
Proof. unfold Rdiv. now rewrite Rmult_assoc. Qed.

(** The example of the specification: from 5 m/s at 10 m to 50 m over a
    roughness of 0.1 m. *)
Example formula_example :
  exists r st',
    extrapolate_wind_speed formula_ds (Py.PyInt 50) (Some 10%Z) formula_store
    = (Py.Ok r, st')
    /\ forall ix,
        values st' r ix = (5 * ln (50 / / 10) / ln (10 / / 10))%R.
Proof.
  destruct (extrapolation_path (F := R) formula_ds (Py.PyInt 50) (Some 10%Z)
              formula_store 10%Z 0 1)
    as (r & st' & Hrun & _ & _ & _ & _ & Hval); try reflexivity.
  exists r, st'. split; [exact Hrun|]. intros ix.
  destruct Hval as (_ & Hv & _); [cbn; lia..|].
  unfold values. rewrite Hv. cbn.
  rewrite !Q2R_inject_Z. apply real_grouping.
Qed.

Lemma extrapolate_log_law_witness :
  contains sample_ds (wnd_name (Py.int (Py.PyInt 40))) = false /\
  source_height sample_ds (Py.PyInt 40) None = Py.Ok 50%Z /\
  lookup sample_ds (wnd_name 50) = Some 1 /\
  lookup sample_ds "roughness" = Some 2 /\
  well_stored sample_ds sample_store = true /\
  exists r st',
    extrapolate_wind_speed sample_ds (Py.PyInt 40) None sample_store
    = (Py.Ok r, st') /\
    dims st' r = ["time"; "y"; "x"] /\
    (forall ix,
        values st' r ix
        = ((7 + INR (ix "time"))
           * (ln (Q2R (inject_Z 40) / / 10)
              / ln (Q2R (inject_Z 50) / / 10)))%R) /\
    (reads_only ["time"; "y"; "x"] (v_data sample_wnd50m) ->
     reads_only ["y"; "x"] (v_data sample_roughness) ->
     reads_only (dims st' r) (values st' r)).
Proof.
  repeat (split; [reflexivity|]).
  exact (extrapolate_log_law (F := R) sample_ds (Py.PyInt 40) None
           sample_store 50%Z 1 2 eq_refl eq_refl eq_refl eq_refl eq_refl).
Defined.


(** C3, on a dataset with [wnd10m], [wnd_gust] and [roughness]: the scan does
    not select height 10, the only wind speed variable; [int] refuses the
    characters [_gus] and the call raises [ValueError]. *)
Theorem gust_breaks_height_scan :
  wnd_heights gust_ds = [10%Z] /\
  contains gust_ds (wnd_name (Py.int (Py.PyInt 40))) = false /\
  extrapolate_wind_speed gust_ds (Py.PyInt 40) None gust_store
  = (Py.Raise (Py.ValueError "_gus"), gust_store).
Proof. repeat split. Qed.

(** C4 as stated fails on a dataset with [roughness] only: the exception is
    an [AssertionError], not a [MissingDataError]. *)
Lemma missing_data_error_refuted :
  wnd_heights bare_ds = [] /\
  contains bare_ds (wnd_name (Py.int (Py.PyInt 50))) = false /\
  ~ exists e,
      outcome (extrapolate_wind_speed bare_ds (Py.PyInt 50) None) bare_store
      = Py.Raise e /\
      Py.exn_class e = "MissingDataError".
Proof.
  repeat (split; [reflexivity|]).
  intros (e & He & Hcl).
  change (Py.Raise (A := DataArray)
            (Py.AssertionError "Wind speed is not in dataset") = Py.Raise e)
    in He.
  inversion He; subst. discriminate.
Qed.

Lemma no_wind_speed_assertion_witness :
  forallb (fun s => negb (Py.startswith s "wnd")) (keys bare_ds) = true /\
  extrapolate_wind_speed bare_ds (Py.PyInt 50) None bare_store
  = (Py.Raise (Py.AssertionError "Wind speed is not in dataset"), bare_store).
Proof.
  split; [reflexivity|].
  apply (no_wind_speed_assertion (F := R) bare_ds (Py.PyInt 50) bare_store).
  reflexivity.
Defined.



Example long_name_sample :
  attr (final_store (extrapolate_wind_speed sample_ds (Py.PyInt 40) None)
          sample_store)
    (mkDataArray (Some "wnd40m") 8) "long name"
  = Some "extrapolated 40 m wind speed using logarithmic method with roughness and 50 m wind speed".
Proof. reflexivity. Qed.

Lemma returned_name_witness :
  extrapolate_wind_speed sample_ds (Py.PyFloat (81 # 2)) None sample_store
  = (Py.Ok (mkDataArray (Some "wnd40m") 8),
     final_store
       (extrapolate_wind_speed sample_ds (Py.PyFloat (81 # 2)) None)
       sample_store) /\
  da_name (mkDataArray (Some "wnd40m") 8)
  = Some (wnd_name (Py.int (Py.PyFloat (81 # 2)))).
Proof.
  split; [reflexivity|].
  apply (returned_name (F := R) sample_ds (Py.PyFloat (81 # 2)) None
           sample_store
           (final_store
              (extrapolate_wind_speed sample_ds (Py.PyFloat (81 # 2)) None)
              sample_store)).
  reflexivity.
Defined.

(** The extended reals satisfy the laws. *)
Lemma xreal_ieee_laws : IeeeLaws xreal_runtime xreal_special.
Proof.
  constructor; cbn.
  - intros x y (a & -> & Ha) ->. cbn.
    destruct (Req_dec_T 0 0); [|contradiction].
    destruct (Req_dec_T a 0); [lra|].
    destruct (Rlt_dec a 0); auto.
  - intros x y (a & -> & Ha) [->|(b & -> & Hb)]; cbn; [now right|].
    destruct (Req_dec_T b 0); [lra|].
    left. right. exists (a / b)%R. split; [reflexivity|].
    now apply Rdiv_pos_neg.
  - intros x (a & -> & Ha). cbn.
    destruct (Req_dec_T a 0); [lra|]. cbn.
    rewrite Rdiv_diag by assumption.
    destruct (Rlt_dec 1 0); [lra|].
    destruct (Req_dec_T 1 0); [lra|].
    now rewrite ln_1.
  - intros x y ->. destruct x as [a| | |]; cbn; auto.
    + destruct (Req_dec_T 0 0); [|contradiction].
      destruct (Req_dec_T a 0); [now right|].
      destruct (Rlt_dec a 0); auto.
    + destruct (Rlt_dec 0 0); auto.
    + destruct (Rlt_dec 0 0); auto.
  - intros x y [->| ->] [->| ->]; reflexivity.
  - intros x y ->. reflexivity.
  - intros x y ->. now destruct x.
  - intros x ->. cbn.
    destruct (Rlt_dec 0 0); [lra|].
    destruct (Req_dec_T 0 0); [auto|contradiction].
  - intros x [->|(b & -> & Hb)]; cbn; [reflexivity|].
    destruct (Rlt_dec b 0); [reflexivity|contradiction].
  - intros x [->| ->]; cbn; auto.
  - intros x y [->| ->]; destruct x as [a| | |]; cbn; auto;
      destruct (Req_dec_T a 0); auto; destruct (Rlt_dec a 0); auto.
  - intros x y ->. now destruct x.
Qed.

Lemma positive_height (z : Z) :
  (0 < z)%Z -> is_positive xreal_special (of_number (Py.PyInt z)).
Proof.
  intros Hz. exists (Q2R (inject_Z z)). split; [reflexivity|].
  rewrite Q2R_inject_Z. now apply IZR_lt.
Qed.


(** On the sample with degenerate roughness: not-a-number where roughness
    is zero or minus one, an infinity or not-a-number where it equals the
    source height 10. *)
Example degenerate_sample :
  exists r st',
    extrapolate_wind_speed degenerate_ds (Py.PyInt 50) (Some 10%Z)
      degenerate_store
    = (Py.Ok r, st') /\
    forall ix,
      (ix "x" = 0 \/ ix "x" = 1 -> values st' r ix = NotANumber) /\
      (ix "x" = 2 ->
       values st' r ix = PlusInf \/ values st' r ix = MinusInf \/
       values st' r ix = NotANumber).
Proof.
  destruct (extrapolation_path (F := xreal) degenerate_ds (Py.PyInt 50)
              (Some 10%Z) degenerate_store 10%Z 0 1)
    as (r & st' & Hrun & _ & _ & _ & _ & Hval); try reflexivity.
  destruct Hval as (_ & Hv & _); [cbn; lia..|].
  exists r, st'. split; [exact Hrun|]. intros ix.
  destruct (log_law_degenerate xreal_special xreal_ieee_laws (Py.PyInt 50)
              10%Z (Finite 5) (degenerate_roughness ix))
    as (Hbad & Heq & _); try (apply positive_height; lia).
  unfold values. rewrite Hv.
  change (v_data (cell degenerate_store 0) ix) with (Finite 5).
  change (v_data (cell degenerate_store 1) ix)
    with (degenerate_roughness ix).
  split.
  - intros Hx. apply Hbad. unfold degenerate_roughness.
    destruct Hx as [-> | ->]; cbn.
    + now left.
    + right. right. exists (-1)%R. split; [reflexivity|lra].
  - intros Hx.
    destruct Heq as [[Hi|Hi]|Hn]; auto.
    unfold degenerate_roughness. now rewrite Hx.
Qed.

(** C8 as stated fails on the empty dataset when [from_height] is left out:
    [roughness] is absent, and the call raises [AssertionError]. *)
Lemma roughness_absent_no_key_error :
  lookup empty_ds "roughness" = None /\
  contains empty_ds (wnd_name (Py.int (Py.PyInt 50))) = false /\
  extrapolate_wind_speed empty_ds (Py.PyInt 50) None empty_store
  = (Py.Raise (Py.AssertionError "Wind speed is not in dataset"),
     empty_store) /\
  Py.exn_class (Py.AssertionError "Wind speed is not in dataset")
  <> "KeyError".
Proof. repeat split. discriminate. Qed.

Lemma missing_variable_key_error_witness :
  contains bare_ds (wnd_name (Py.int (Py.PyInt 50))) = false /\
  source_height bare_ds (Py.PyInt 50) (Some 10%Z) = Py.Ok 10%Z /\
  (lookup bare_ds (wnd_name 10) = None \/ lookup bare_ds "roughness" = None)
  /\
  extrapolate_wind_speed bare_ds (Py.PyInt 50) (Some 10%Z) bare_store
  = (Py.Raise (Py.KeyError "wnd10m"), bare_store).
Proof.
  repeat (split; [first [reflexivity | left; reflexivity]|]).
  apply (missing_variable_key_error (F := R) bare_ds (Py.PyInt 50)
           (Some 10%Z) 10%Z bare_store);
    first [reflexivity | left; reflexivity].
Defined.

Example roughness_key_error :
  extrapolate_wind_speed [("wnd10m", 0)] (Py.PyInt 50) None bare_store
  = (Py.Raise (Py.KeyError "roughness"), bare_store).
Proof. reflexivity. Qed.

Lemma dataset_not_mutated_witness :
  well_stored sample_ds sample_store = true /\
  lookup sample_ds "wnd50m" = Some 1 /\
  cell (final_store (extrapolate_wind_speed sample_ds (Py.PyInt 40) None)
          sample_store) 1
  = cell sample_store 1.
Proof.
  repeat (split; [reflexivity|]).
  apply (dataset_not_mutated (F := R) sample_ds (Py.PyInt 40) None
           sample_store "wnd50m" 1); reflexivity.
Defined.

(** C10 as stated fails on a dataset with [wnd-5m] and [roughness], and on
    one with [wnd10], [wnd1m] and [roughness]: [wnd-5m] and [wnd10] start
    with [wnd] and are not of the form [wnd<digits>m], yet [int] accepts
    what the scan cuts out of them and both calls return. *)
Lemma misnamed_key_no_value_error :
  (In "wnd-5m" (keys signed_ds) /\
   Py.startswith "wnd-5m" "wnd" = true /\
   is_wnd_key "wnd-5m" = false /\
   contains signed_ds (wnd_name (Py.int (Py.PyInt 40))) = false /\
   scan_heights (keys signed_ds) = Py.Ok [(-5)%Z] /\
   outcome (extrapolate_wind_speed signed_ds (Py.PyInt 40) None) sample_store
   = Py.Ok (mkDataArray (Some "wnd40m") 8)) /\
  (In "wnd10" (keys misnamed_ds) /\
   Py.startswith "wnd10" "wnd" = true /\
   is_wnd_key "wnd10" = false /\
   contains misnamed_ds (wnd_name (Py.int (Py.PyInt 40))) = false /\
   scan_heights (keys misnamed_ds) = Py.Ok [1%Z; 1%Z] /\
   outcome (extrapolate_wind_speed misnamed_ds (Py.PyInt 40) None)
     sample_store
   = Py.Ok (mkDataArray (Some "wnd40m") 8)).
Proof. repeat split; now left. Qed.

Lemma scan_raises_value_error_witness :
  contains gust_ds (wnd_name (Py.int (Py.PyInt 40))) = false /\
  In "wnd_gust" (keys gust_ds) /\
  Py.startswith "wnd_gust" "wnd" = true /\
  Py.int_of_str (Py.slice_3_m1 "wnd_gust") = None /\
  (exists lit,
      extrapolate_wind_speed gust_ds (Py.PyInt 40) None gust_store
      = (Py.Raise (Py.ValueError lit), gust_store)) /\
  Py.int_of_str (Py.slice_3_m1 "wnd_gust") = None /\
  scan_heights ["wnd10"] = Py.Ok [1%Z].
Proof.
  split; [reflexivity|]. split; [right; left; reflexivity|].
  repeat (split; [reflexivity|]).
  apply (scan_raises_value_error (F := R) gust_ds (Py.PyInt 40) gust_store
           "wnd_gust"); first [reflexivity | right; left; reflexivity].
Defined.

End Samples.

(** * Further properties of the function *)

(** ** The height scan reads back what the format wrote *)

Section RoundTrip.

Lemma string_of_uint_all_digits (u : Decimal.uint) :
  all_digits (NilEmpty.string_of_uint u) = true.
Proof. induction u; cbn [NilEmpty.string_of_uint all_digits]; auto. Qed.

Lemma string_of_uint_nonempty (u : Decimal.uint) :
  u <> Decimal.Nil -> NilEmpty.string_of_uint u <> EmptyString.
Proof. destruct u; cbn; congruence. Qed.

Lemma digits_value_of_uint_acc (u : Decimal.uint) (acc : positive) :
  digits_value (NilEmpty.string_of_uint u) (Zpos acc)
  = Zpos (Pos.of_uint_acc u acc).
Proof.
  revert acc.
  induction u; intros acc;
    cbn [NilEmpty.string_of_uint digits_value Pos.of_uint_acc];
    [reflexivity|rewrite <- IHu; f_equal..];
    try reflexivity;
    match goal with
    | |- context [Py.digit_value ?c] =>
        let v := eval vm_compute in (Py.digit_value c) in
        change (Py.digit_value c) with v
    end; lia.
Qed.

Lemma digits_value_of_uint (u : Decimal.uint) :
  digits_value (NilEmpty.string_of_uint u) 0 = Z.of_N (Pos.of_uint u).
Proof.
  induction u; cbn [NilEmpty.string_of_uint digits_value Pos.of_uint];
    [reflexivity|exact IHu|apply digits_value_of_uint_acc..].
Qed.

Lemma unsigned_literal_digits (s : string) :
  s <> EmptyString -> all_digits s = true ->
  Py.unsigned_literal s = Some (digits_value s 0).
Proof.
  destruct s as [|c s]; [congruence|]. intros _ Hs.
  pose proof Hs as Hs'. cbn in Hs'.
  apply andb_true_iff in Hs' as [Hc _].
  unfold Py.unsigned_literal. rewrite Hc.
  rewrite digits_from_all_digits by exact Hs. reflexivity.
Qed.

Lemma pos_digits (p : positive) :
  let s := NilEmpty.string_of_uint (Pos.to_uint p) in
  s <> EmptyString /\ all_digits s = true /\ digits_value s 0 = Zpos p /\
  NilZero.string_of_uint (Pos.to_uint p) = s.
Proof.
  cbv zeta. pose proof (DecimalPos.Unsigned.to_uint_nonnil p) as Hn.
  split; [now apply string_of_uint_nonempty|].
  split; [apply string_of_uint_all_digits|]. split.
  - rewrite digits_value_of_uint, DecimalPos.Unsigned.of_to. reflexivity.
  - unfold NilZero.string_of_uint. now destruct (Pos.to_uint p).
Qed.

(** [int] reads the decimal text of every integer back. *)
Lemma int_of_str_format_d (h : Z) : Py.int_of_str (Py.format_d h) = Some h.
Proof.
  unfold Py.format_d. destruct h as [|p|p]; [reflexivity| |].
  - cbn [Z.to_int NilZero.string_of_int].
    destruct (pos_digits p) as (Hne & Hd & Hv & ->).
    rewrite int_of_str_digits by assumption. now rewrite Hv.
  - cbn [Z.to_int NilZero.string_of_int].
    destruct (pos_digits p) as (Hne & Hd & Hv & ->).
    unfold Py.int_of_str. cbn [Py.lstrip].
    change (Py.is_space "-") with false. cbv iota.
    change (Ascii.eqb "-" "+") with false.
    change (Ascii.eqb "-" "-") with true. cbv iota.
    rewrite unsigned_literal_digits by assumption. now rewrite Hv.
Qed.

Lemma substring_0_app (d rest : string) :
  String.substring 0 (String.length d) (d ++ rest) = d.
Proof. induction d as [|c d IH]; cbn; [now destruct rest|now rewrite IH]. Qed.

Lemma length_append (s1 s2 : string) :
  String.length (s1 ++ s2) = String.length s1 + String.length s2.
Proof. induction s1 as [|c s1 IH]; cbn; [reflexivity|now rewrite IH]. Qed.

Lemma slice_wnd_name (h : Z) : Py.slice_3_m1 (wnd_name h) = Py.format_d h.
Proof.
  unfold Py.slice_3_m1, wnd_name. cbn [String.append String.length].
  rewrite length_append. cbn [String.length String.substring].
  replace (S (S (S (String.length (Py.format_d h) + 1))) - 1 - 3)
    with (String.length (Py.format_d h)) by lia.
  apply substring_0_app.
Qed.

(** X7. The scan of line 71 reads back the heights that the format of lines
    65 and 78 wrote into names: from the names [wnd<h>m] of any integers,
    negative ones included, it returns these integers in the same order. *)
Theorem scan_heights_wnd_names (hs : list Z) :
  scan_heights (map wnd_name hs) = Py.Ok hs.
Proof.
  induction hs as [|h hs IH]; cbn [map scan_heights]; [reflexivity|].
  rewrite wnd_name_startswith, slice_wnd_name, int_of_str_format_d, IH.
  reflexivity.
Qed.

End RoundTrip.

(** ** Which height wins a tie *)

Section Ties.

Lemma argmin_from_first (full : list Q) :
  forall (l pre : list Q) (best : Q) (best_i : nat),
    full = pre ++ l ->
    best_i < List.length pre ->
    nth best_i full 0%Q = best ->
    (forall x, In x pre -> (best <= x)%Q) ->
    (forall j, j < best_i -> (best < nth j full 0%Q)%Q) ->
    let r := argmin_from l (List.length pre) best best_i in
    forall j, j < r -> (nth r full 0%Q < nth j full 0%Q)%Q.
Proof.
  induction l as [|y l IH]; intros pre best best_i Hfull Hi Hbest Hpre Hfst.
  - cbn. intros j Hj. rewrite Hbest. now apply Hfst.
  - cbn [argmin_from].
    assert (Hfull' : full = (pre ++ [y]) ++ l)
      by (rewrite <- app_assoc; exact Hfull).
    assert (Hlen : List.length (pre ++ [y]) = S (List.length pre))
      by (rewrite length_app; cbn; lia).
    destruct (Qle_bool best y) eqn:Hle.
    + rewrite <- Hlen. apply IH; auto.
      * rewrite Hlen. lia.
      * intros x Hx. apply in_app_or in Hx as [Hx|[<-|[]]]; auto.
        now apply Qle_bool_iff.
    + assert (Hlt : (y < best)%Q).
      { apply Qnot_le_lt. intros Hc. apply Qle_bool_iff in Hc. congruence. }
      rewrite <- Hlen. apply IH; auto.
      * rewrite Hlen. lia.
      * rewrite Hfull. rewrite app_nth2 by lia.
        now rewrite Nat.sub_diag.
      * intros x Hx. apply in_app_or in Hx as [Hx|[<-|[]]].
        -- apply Qle_trans with best; [now apply Qlt_le_weak|now apply Hpre].
        -- apply Qle_refl.
      * intros j Hj. apply Qlt_le_trans with best; [exact Hlt|].
        apply Hpre. rewrite Hfull, app_nth1 by exact Hj.
        now apply nth_In.
Qed.

(** Every element before the index [argmin] returns is strictly above the
    one there. *)
Lemma argmin_first (l : list Q) (j : nat) :
  j < argmin l -> (nth (argmin l) l 0%Q < nth j l 0%Q)%Q.
Proof.
  destruct l as [|y l]; [cbn; lia|]. unfold argmin.
  apply (argmin_from_first (y :: l) l [y] y 0); cbn; auto; try lia.
  intros x [<-|[]]. apply Qle_refl.
Qed.

Lemma nth_distances (heights : list Z) (t : Py.number) (i : nat) :
  i < List.length heights ->
  nth i (distances heights t) 0%Q
  = Qabs (inject_Z (nth i heights 0%Z) - Py.value t).
Proof.
  intros Hi. unfold distances.
  rewrite (nth_indep _ 0%Q (Qabs (inject_Z 0%Z - Py.value t)))
    by (rewrite length_map; exact Hi).
  now rewrite (map_nth (fun h => Qabs (inject_Z h - Py.value t))).
Qed.

(** In the exact numbers of [distances], the height chosen is at the first
    position where the distance to [to_height] is least. *)
Lemma closest_height_first_exact ds (t : Py.number) (heights : list Z) :
  scan_heights (keys ds) = Py.Ok heights ->
  heights <> [] ->
  exists i,
    i < List.length heights /\
    closest_height ds t = Py.Ok (nth i heights 0%Z) /\
    (forall j, j < List.length heights ->
       (Qabs (inject_Z (nth i heights 0%Z) - Py.value t)
        <= Qabs (inject_Z (nth j heights 0%Z) - Py.value t))%Q) /\
    (forall j, j < i ->
       (Qabs (inject_Z (nth i heights 0%Z) - Py.value t)
        < Qabs (inject_Z (nth j heights 0%Z) - Py.value t))%Q).
Proof.
  intros Hscan Hne.
  assert (Hd : distances heights t <> []).
  { unfold distances. destruct heights; [congruence|discriminate]. }
  destruct (argmin_least _ Hd) as [Hlt Hmin].
  unfold distances in Hlt at 2. rewrite length_map in Hlt.
  exists (argmin (distances heights t)). split; [exact Hlt|]. split.
  { unfold closest_height. rewrite Hscan.
    destruct heights; [congruence|reflexivity]. }
  split.
  - intros j Hj. rewrite <- !nth_distances by assumption.
    apply Hmin. apply nth_In. unfold distances. now rewrite length_map.
  - intros j Hj. rewrite <- !nth_distances by lia.
    now apply argmin_first.
Qed.

(** *** In small integers *)

Lemma int_distance (a z : Z) :
  Qabs (inject_Z a - inject_Z z) = inject_Z (Z.abs (a - z)).
Proof.
  unfold Qminus, Qplus, Qopp, Qabs, inject_Z. cbn. f_equal. f_equal. lia.
Qed.

Lemma small_bound (z : Z) : small z = true -> (Z.abs z < 1073741824)%Z.
Proof. unfold small. intros H. now apply Z.ltb_lt in H. Qed.

Lemma wrap_id (w z : Z) :
  (1 <= w)%Z -> (- 2 ^ (w - 1) <= z < 2 ^ (w - 1))%Z -> wrap w z = z.
Proof.
  intros Hw Hz. unfold wrap.
  replace w with (Z.succ (w - 1)) at 2 by lia.
  rewrite Z.pow_succ_r by lia.
  rewrite Z.mod_small by lia. lia.
Qed.

(** With small heights and a small [to_height], the distances numpy
    computes in integers of 32 bits or more are the exact ones. *)
Lemma fixed_width_distances_exact (w : Z) (heights : list Z) (z : Z) :
  (32 <= w)%Z ->
  forallb small heights = true ->
  small z = true ->
  map inject_Z (fixed_width_distances w heights z)
  = distances heights (Py.PyInt z).
Proof.
  intros Hw Hs Hz. apply small_bound in Hz.
  assert (Hp : (2147483648 <= 2 ^ (w - 1))%Z).
  { change 2147483648%Z with (2 ^ 31)%Z.
    apply Z.pow_le_mono_r; lia. }
  unfold fixed_width_distances, distances. rewrite map_map.
  apply map_ext_in. intros h Hin.
  rewrite forallb_forall in Hs. specialize (Hs h Hin).
  apply small_bound in Hs. cbn [Py.value]. rewrite int_distance.
  rewrite (wrap_id w h), (wrap_id w z) by lia.
  rewrite (wrap_id w (h - z)) by lia.
  rewrite (wrap_id w (Z.abs (h - z))) by lia.
  reflexivity.
Qed.

(** X1. For an integer [to_height] and heights small enough for numpy's
    integers to be exact: among the keys the docstring describes, the scan
    picks the height of one of them, and none of them is closer to
    [to_height]. *)
Theorem closest_docstring_height ds (z : Z) :
  only_wnd_keys ds = true ->
  wnd_heights ds <> [] ->
  small z = true ->
  forallb small (wnd_heights ds) = true ->
  exists h,
    closest_height ds (Py.PyInt z) = Py.Ok h /\
    In h (wnd_heights ds) /\
    forall h', In h' (wnd_heights ds) ->
      (Z.abs (h - z) <= Z.abs (h' - z))%Z.
Proof.
  intros Hk Hne _ _.
  destruct (closest_height_minimal ds (Py.PyInt z) Hk Hne)
    as (h & Hc & Hin & Hmin).
  exists h. split; [exact Hc|]. split; [exact Hin|].
  intros h' Hh'. specialize (Hmin h' Hh'). cbn [Py.value] in Hmin.
  rewrite !int_distance in Hmin. now rewrite Zle_Qle.
Qed.

(** X2. For an integer [to_height] and heights small enough for numpy's
    integers to be exact: whatever the names gave to the scan, the height
    chosen is at the first position, in the order of the dataset, where the
    distance to [to_height] is least: no height is closer, and every height
    before it is strictly farther. *)
Theorem closest_height_first_of_ties ds (z : Z) (heights : list Z) :
  scan_heights (keys ds) = Py.Ok heights ->
  heights <> [] ->
  small z = true ->
  forallb small heights = true ->
  exists i,
    i < List.length heights /\
    closest_height ds (Py.PyInt z) = Py.Ok (nth i heights 0%Z) /\
    (forall j, j < List.length heights ->
       (Z.abs (nth i heights 0 - z) <= Z.abs (nth j heights 0 - z))%Z) /\
    (forall j, j < i ->
       (Z.abs (nth i heights 0 - z) < Z.abs (nth j heights 0 - z))%Z).
Proof.
  intros Hscan Hne _ _.
  destruct (closest_height_first_exact ds (Py.PyInt z) heights Hscan Hne)
    as (i & Hi & Hc & Hle & Hlt).
  exists i. split; [exact Hi|]. split; [exact Hc|]. split.
  - intros j Hj. specialize (Hle j Hj). cbn [Py.value] in Hle.
    rewrite !int_distance in Hle. now rewrite Zle_Qle.
  - intros j Hj. specialize (Hlt j Hj). cbn [Py.value] in Hlt.
    rewrite !int_distance in Hlt. now rewrite Zlt_Qlt.
Qed.

End Ties.

(** ** When a call raises, and when it returns *)

Section Outcomes.
Context {F : Type} `{RT : Runtime F}.

Lemma scan_heights_raises (names : list string) e :
  scan_heights names = Py.Raise e ->
  exists s,
    In s names /\ Py.startswith s "wnd" = true /\
    Py.int_of_str (Py.slice_3_m1 s) = None /\
    e = Py.ValueError (Py.slice_3_m1 s).
Proof.
  induction names as [|s names IH]; cbn [scan_heights]; [discriminate|].
  destruct (Py.startswith s "wnd") eqn:Hp.
  - destruct (Py.int_of_str (Py.slice_3_m1 s)) as [h|] eqn:Hi.
    + destruct (scan_heights names) as [hs|e'] eqn:Hs; [discriminate|].
      intros He. inversion He; subst.
      destruct (IH eq_refl) as (s' & Hin & H'). exists s'. cbn. auto.
    + intros He. inversion He; subst. exists s. cbn. auto.
  - intros He. destruct (IH He) as (s' & Hin & H'). exists s'. cbn. auto.
Qed.

Lemma scan_heights_nothing (names : list string) :
  scan_heights names = Py.Ok [] ->
  forallb (fun s => negb (Py.startswith s "wnd")) names = true.
Proof.
  induction names as [|s names IH]; cbn [scan_heights forallb];
    [reflexivity|].
  destruct (Py.startswith s "wnd") eqn:Hp; cbn [negb andb]; [|exact IH].
  destruct (Py.int_of_str (Py.slice_3_m1 s)); [|discriminate].
  destruct (scan_heights names); discriminate.
Qed.

Lemma In_keys_lookup ds name :
  In name (keys ds) -> exists l, lookup ds name = Some l.
Proof.
  induction ds as [|[k l0] ds IH]; cbn; [intros []|].
  destruct (String.eqb_spec k name); [eauto|].
  intros [Hk|Hin]; [contradiction|auto].
Qed.

(** A call that raises does so before anything is built: at the scan, or at
    one of the two lookups of line 81. *)
Lemma call_raises ds (t : Py.number) fh (st st' : Store F) e :
  extrapolate_wind_speed ds t fh st = (Py.Raise e, st') ->
  st' = st /\
  contains ds (wnd_name (Py.int t)) = false /\
  (source_height ds t fh = Py.Raise e \/
   exists h,
     source_height ds t fh = Py.Ok h /\
     ((lookup ds (wnd_name h) = None /\ e = Py.KeyError (wnd_name h)) \/
      (lookup ds (wnd_name h) <> None /\ lookup ds "roughness" = None /\
       e = Py.KeyError "roughness"))).
Proof.
  intros Hrun.
  destruct (contains ds (wnd_name (Py.int t))) eqn:Hc.
  { apply contains_true in Hc as [l Hl].
    rewrite (fast_lane ds t fh st l Hl) in Hrun. discriminate. }
  destruct (source_height ds t fh) as [h|e'] eqn:Hs.
  2:{ rewrite (no_source_height ds t fh st e' Hc Hs) in Hrun.
      inversion Hrun; subst. auto. }
  destruct (lookup ds (wnd_name h)) as [lw|] eqn:Hw.
  2:{ rewrite (no_source_variable ds t fh st h Hc Hs Hw) in Hrun.
      inversion Hrun; subst. split; [reflexivity|]. split; [reflexivity|].
      right. exists h. auto. }
  destruct (lookup ds "roughness") as [lr|] eqn:Hr.
  2:{ rewrite (no_roughness ds t fh st h lw Hc Hs Hw Hr) in Hrun.
      inversion Hrun; subst. split; [reflexivity|]. split; [reflexivity|].
      right. exists h. split; [reflexivity|]. right.
      rewrite Hw. repeat split. discriminate. }
  destruct (extrapolation_path ds t fh st h lw lr Hc Hs Hw Hr)
    as (r & st0 & Hok & _).
  rewrite Hok in Hrun. discriminate.
Qed.

(** X3. For a [to_height] that is a small [int] or a finite [float] and a
    small [from_height]: the only exception a call can raise is the
    [KeyError] of a missing variable, for [wnd<from_height>m] when that is
    missing, else for [roughness].  The names of the other variables play no
    part, and the store is left exactly as it was. *)
Theorem given_height_errors ds (t : Py.number) h (st st' : Store F) e :
  ordinary t = true ->
  small h = true ->
  extrapolate_wind_speed ds t (Some h) st = (Py.Raise e, st') ->
  st' = st /\
  contains ds (wnd_name (Py.int t)) = false /\
  ((lookup ds (wnd_name h) = None /\ e = Py.KeyError (wnd_name h)) \/
   (lookup ds (wnd_name h) <> None /\ lookup ds "roughness" = None /\
    e = Py.KeyError "roughness")).
Proof.
  intros _ _ Hrun.
  destruct (call_raises ds t (Some h) st st' e Hrun) as (Hst & Hc & Hcase).
  split; [exact Hst|]. split; [exact Hc|].
  destruct Hcase as [Hs|(h' & Hs & Hcase)]; cbn in Hs; [discriminate|].
  now inversion Hs; subst.
Qed.

(** X4. For an integer [to_height] and heights small enough for numpy's
    integers to be exact: with [from_height] left out, a call that raises
    does so for one of four reasons, tried in this order: [int] refuses the
    characters cut out of a name that starts with [wnd] ([ValueError] with
    these characters); no name starts with [wnd] ([AssertionError]); the
    variable of the chosen height is missing ([KeyError]); [roughness] is
    missing ([KeyError]).  The store is left exactly as it was. *)
Theorem omitted_height_errors ds (t : Py.number) (st st' : Store F) e :
  exact_scan ds t = true ->
  extrapolate_wind_speed ds t None st = (Py.Raise e, st') ->
  st' = st /\
  contains ds (wnd_name (Py.int t)) = false /\
  ((exists s,
       In s (keys ds) /\ Py.startswith s "wnd" = true /\
       Py.int_of_str (Py.slice_3_m1 s) = None /\
       e = Py.ValueError (Py.slice_3_m1 s)) \/
   (forallb (fun s => negb (Py.startswith s "wnd")) (keys ds) = true /\
    e = Py.AssertionError "Wind speed is not in dataset") \/
   (exists h,
       closest_height ds t = Py.Ok h /\
       ((lookup ds (wnd_name h) = None /\ e = Py.KeyError (wnd_name h)) \/
        (lookup ds (wnd_name h) <> None /\ lookup ds "roughness" = None /\
         e = Py.KeyError "roughness")))).
Proof.
  intros _ Hrun.
  destruct (call_raises ds t None st st' e Hrun) as (Hst & Hc & Hcase).
  split; [exact Hst|]. split; [exact Hc|].
  destruct Hcase as [Hs|(h & Hs & Hcase)]; cbn in Hs.
  - unfold closest_height in Hs.
    destruct (scan_heights (keys ds)) as [hs|e'] eqn:Hscan.
    + destruct hs as [|h0 hs]; [|discriminate].
      cbn in Hs. inversion Hs; subst. right. left.
      split; [now apply scan_heights_nothing|reflexivity].
    + inversion Hs; subst. left. now apply scan_heights_raises.
  - right. right. exists h. auto.
Qed.

Lemma returns_when ds (t : Py.number) fh (st : Store F) :
  (contains ds (wnd_name (Py.int t)) = true \/
   exists h,
     source_height ds t fh = Py.Ok h /\
     contains ds (wnd_name h) = true /\
     contains ds "roughness" = true) ->
  exists r st', extrapolate_wind_speed ds t fh st = (Py.Ok r, st').
Proof.
  destruct (contains ds (wnd_name (Py.int t))) eqn:Hc.
  - intros _. apply contains_true in Hc as [l Hl].
    eexists _, _. exact (fast_lane ds t fh st l Hl).
  - intros [Hf|(h & Hs & Hw & Hr)]; [discriminate|].
    apply contains_true in Hw as [lw Hw].
    apply contains_true in Hr as [lr Hr].
    destruct (extrapolation_path ds t fh st h lw lr Hc Hs Hw Hr)
      as (r & st' & Hrun & _).
    eauto.
Qed.

(** X5. The array an extrapolation returns wraps a new object: no variable
    of the dataset, and no object the store held before the call, is the one
    it wraps.  Only the fast lane returns an array that shares its variable
    with the dataset. *)
Theorem extrapolated_array_is_new ds (t : Py.number) fh (st st' : Store F) r :
  well_stored ds st = true ->
  contains ds (wnd_name (Py.int t)) = false ->
  extrapolate_wind_speed ds t fh st = (Py.Ok r, st') ->
  next st <= da_var r /\
  forall name l, lookup ds name = Some l -> l <> da_var r.
Proof.
  intros Hst Hc Hrun.
  destruct (call_returns ds t fh st st' r Hrun)
    as [(l & Hl & _)|(_ & h & lw & lr & Hs & Hw & Hr)].
  { apply contains_false in Hc. congruence. }
  pose proof (ensures_run _ _ _ _ _
                (extrapolation_path ds t fh st h lw lr Hc Hs Hw Hr) Hrun)
    as (_ & Hge & _).
  split; [exact Hge|]. intros name l Hl.
  pose proof (lookup_well_stored ds st name l Hst Hl). lia.
Qed.

(** In the exact numbers of [distances], a dataset whose names that start
    with [wnd] were all written by the format of the function has a source
    variable for every [to_height]. *)
Lemma formatted_returns_exact ds (t : Py.number) (st : Store F) :
  (forall s, In s (keys ds) -> Py.startswith s "wnd" = true ->
             exists h, s = wnd_name h) ->
  (exists s, In s (keys ds) /\ Py.startswith s "wnd" = true) ->
  contains ds "roughness" = true ->
  exists r st', extrapolate_wind_speed ds t None st = (Py.Ok r, st').
Proof.
  intros Hfmt (s0 & Hin0 & Hp0) Hr.
  apply returns_when.
  destruct (contains ds (wnd_name (Py.int t))) eqn:Hc; [now left|right].
  assert (Hscan : exists hs,
             scan_heights (keys ds) = Py.Ok hs /\
             forall h, In h hs -> In (wnd_name h) (keys ds)).
  { clear Hin0 Hp0 Hr Hc. induction (keys ds) as [|s names IH].
    - exists []. split; [reflexivity|intros h []].
    - destruct IH as (hs & Hhs & Hsub).
      { intros s' Hin. apply Hfmt. now right. }
      cbn [scan_heights]. rewrite Hhs.
      destruct (Py.startswith s "wnd") eqn:Hp.
      + destruct (Hfmt s (or_introl eq_refl) Hp) as [h ->].
        rewrite slice_wnd_name, int_of_str_format_d.
        exists (h :: hs). split; [reflexivity|].
        intros h' [<-|Hin]; [now left|right; auto].
      + exists hs. split; [reflexivity|]. intros h' Hin. right. auto. }
  destruct Hscan as (hs & Hhs & Hsub).
  assert (Hne : hs <> []).
  { intros ->. apply scan_heights_nothing in Hhs.
    rewrite forallb_forall in Hhs. specialize (Hhs s0 Hin0).
    now rewrite Hp0 in Hhs. }
  destruct (closest_of_heights hs t Hne) as [Hin _].
  exists (nth (argmin (distances hs t)) hs 0%Z). split.
  - cbn. unfold closest_height. rewrite Hhs.
    destruct hs; [congruence|reflexivity].
  - split; [|exact Hr]. unfold contains.
    destruct (In_keys_lookup ds _ (Hsub _ Hin)) as [l ->]. reflexivity.
Qed.

(** X8. For an integer [to_height] and heights small enough for numpy's
    integers to be exact: in a dataset whose names that start with [wnd]
    were all written by the format of the function, [wnd<h>m] for an integer
    [h], that has one such variable at least and [roughness], a call without
    [from_height] returns. *)
Theorem formatted_dataset_returns ds (z : Z) (st : Store F) :
  (forall s, In s (keys ds) -> Py.startswith s "wnd" = true ->
             exists h, small h = true /\ s = wnd_name h) ->
  (exists s, In s (keys ds) /\ Py.startswith s "wnd" = true) ->
  contains ds "roughness" = true ->
  small z = true ->
  exists r st', extrapolate_wind_speed ds (Py.PyInt z) None st = (Py.Ok r, st').
Proof.
  intros Hfmt Hex Hr _. apply formatted_returns_exact; auto.
  intros s Hin Hp. destruct (Hfmt s Hin Hp) as (h & _ & ->). now exists h.
Qed.

End Outcomes.

(** ** The further properties on the sample datasets *)

Section MoreSamples.

Lemma closest_docstring_height_witness :
  only_wnd_keys sample_ds = true /\
  wnd_heights sample_ds <> [] /\
  small 40 = true /\
  forallb small (wnd_heights sample_ds) = true /\
  exists h,
    closest_height sample_ds (Py.PyInt 40) = Py.Ok h /\
    In h (wnd_heights sample_ds) /\
    forall h', In h' (wnd_heights sample_ds) ->
      (Z.abs (h - 40) <= Z.abs (h' - 40))%Z.
Proof.
  assert (Hne : wnd_heights sample_ds <> []) by discriminate.
  split; [reflexivity|]. split; [exact Hne|].
  split; [reflexivity|]. split; [reflexivity|].
  exact (closest_docstring_height sample_ds 40%Z eq_refl Hne eq_refl
           eq_refl).
Defined.

(** Heights 10 and 50 are equally far from 30: the first one is chosen. *)
Lemma closest_height_first_of_ties_witness :
  scan_heights (keys sample_ds) = Py.Ok [10%Z; 50%Z] /\
  [10%Z; 50%Z] <> [] /\
  small 30 = true /\
  forallb small [10%Z; 50%Z] = true /\
  exists i,
    i < List.length [10%Z; 50%Z] /\
    closest_height sample_ds (Py.PyInt 30)
    = Py.Ok (nth i [10%Z; 50%Z] 0%Z) /\
    (forall j, j < List.length [10%Z; 50%Z] ->
       (Z.abs (nth i [10%Z; 50%Z] 0%Z - 30)
        <= Z.abs (nth j [10%Z; 50%Z] 0%Z - 30))%Z) /\
    (forall j, j < i ->
       (Z.abs (nth i [10%Z; 50%Z] 0%Z - 30)
        < Z.abs (nth j [10%Z; 50%Z] 0%Z - 30))%Z).
Proof.
  assert (Hne : [10%Z; 50%Z] <> []) by discriminate.
  split; [reflexivity|]. split; [exact Hne|].
  split; [reflexivity|]. split; [reflexivity|].
  exact (closest_height_first_of_ties sample_ds 30%Z [10%Z; 50%Z]
           eq_refl Hne eq_refl eq_refl).
Defined.

Example tie_takes_first :
  closest_height sample_ds (Py.PyInt 30) = Py.Ok 10%Z /\
  closest_height [("wnd50m", 1); ("wnd10m", 0)] (Py.PyInt 30) = Py.Ok 50%Z.
Proof. split; reflexivity. Qed.

(** The distances of the sample in integers of 64 bits, and what wrapping
    around does to a height near the end of their range. *)
Example fixed_width_samples :
  fixed_width_distances 64 [10; 50]%Z 30 = [20; 20]%Z /\
  fixed_width_distances 64 [10; -9223372036854775808]%Z 0
  = [10; -9223372036854775808]%Z.
Proof. split; reflexivity. Qed.

Lemma given_height_errors_witness :
  ordinary (Py.PyInt 50) = true /\
  small 10 = true /\
  extrapolate_wind_speed bare_ds (Py.PyInt 50) (Some 10%Z) bare_store
  = (Py.Raise (Py.KeyError "wnd10m"), bare_store) /\
  bare_store = bare_store /\
  contains bare_ds (wnd_name (Py.int (Py.PyInt 50))) = false /\
  ((lookup bare_ds (wnd_name 10) = None /\
    Py.KeyError "wnd10m" = Py.KeyError (wnd_name 10)) \/
   (lookup bare_ds (wnd_name 10) <> None /\
    lookup bare_ds "roughness" = None /\
    Py.KeyError "wnd10m" = Py.KeyError "roughness")).
Proof.
  do 3 (split; [reflexivity|]).
  exact (given_height_errors (F := R) bare_ds (Py.PyInt 50) 10%Z bare_store
           bare_store (Py.KeyError "wnd10m") eq_refl eq_refl eq_refl).
Defined.

Lemma omitted_height_errors_witness :
  exact_scan gust_ds (Py.PyInt 40) = true /\
  extrapolate_wind_speed gust_ds (Py.PyInt 40) None gust_store
  = (Py.Raise (Py.ValueError "_gus"), gust_store) /\
  gust_store = gust_store /\
  contains gust_ds (wnd_name (Py.int (Py.PyInt 40))) = false /\
  ((exists s,
       In s (keys gust_ds) /\ Py.startswith s "wnd" = true /\
       Py.int_of_str (Py.slice_3_m1 s) = None /\
       Py.ValueError "_gus" = Py.ValueError (Py.slice_3_m1 s)) \/
   (forallb (fun s => negb (Py.startswith s "wnd")) (keys gust_ds) = true /\
    Py.ValueError "_gus"
    = Py.AssertionError "Wind speed is not in dataset") \/
   (exists h,
       closest_height gust_ds (Py.PyInt 40) = Py.Ok h /\
       ((lookup gust_ds (wnd_name h) = None /\
         Py.ValueError "_gus" = Py.KeyError (wnd_name h)) \/
        (lookup gust_ds (wnd_name h) <> None /\
         lookup gust_ds "roughness" = None /\
         Py.ValueError "_gus" = Py.KeyError "roughness")))).
Proof.
  do 2 (split; [reflexivity|]).
  exact (omitted_height_errors (F := R) gust_ds (Py.PyInt 40) gust_store
           gust_store (Py.ValueError "_gus") eq_refl eq_refl).
Defined.

(** The chosen height's variable is missing: a name with a leading zero is
    read as height 10, and [wnd10m] is not in the dataset. *)
Example leading_zero_key_error :
  is_wnd_key "wnd010m" = true /\
  exact_scan [("wnd010m", 0); ("roughness", 2)] (Py.PyInt 40) = true /\
  extrapolate_wind_speed [("wnd010m", 0); ("roughness", 2)] (Py.PyInt 40)
    None sample_store
  = (Py.Raise (Py.KeyError "wnd10m"), sample_store).
Proof. repeat split. Qed.

Lemma extrapolated_array_is_new_witness :
  well_stored sample_ds sample_store = true /\
  contains sample_ds (wnd_name (Py.int (Py.PyInt 40))) = false /\
  extrapolate_wind_speed sample_ds (Py.PyInt 40) None sample_store
  = (Py.Ok (mkDataArray (Some "wnd40m") 8),
     final_store (extrapolate_wind_speed sample_ds (Py.PyInt 40) None)
       sample_store) /\
  next sample_store <= da_var (mkDataArray (Some "wnd40m") 8) /\
  forall name l,
    lookup sample_ds name = Some l ->
    l <> da_var (mkDataArray (Some "wnd40m") 8).
Proof.
  repeat (split; [reflexivity|]).
  exact (extrapolated_array_is_new (F := R) sample_ds (Py.PyInt 40) None
           sample_store
           (final_store (extrapolate_wind_speed sample_ds (Py.PyInt 40) None)
              sample_store)
           (mkDataArray (Some "wnd40m") 8) eq_refl eq_refl eq_refl).
Defined.

Lemma formatted_dataset_returns_witness :
  (forall s, In s (keys sample_ds) -> Py.startswith s "wnd" = true ->
             exists h, small h = true /\ s = wnd_name h) /\
  (exists s, In s (keys sample_ds) /\ Py.startswith s "wnd" = true) /\
  contains sample_ds "roughness" = true /\
  small 40 = true /\
  exists r st',
    extrapolate_wind_speed sample_ds (Py.PyInt 40) None sample_store
    = (Py.Ok r, st').
Proof.
  assert (H1 : forall s, In s (keys sample_ds) ->
                         Py.startswith s "wnd" = true ->
                         exists h, small h = true /\ s = wnd_name h).
  { intros s [<-|[<-|[<-|[]]]] Hp.
    - exists 10%Z. split; reflexivity.
    - exists 50%Z. split; reflexivity.
    - discriminate Hp. }
  assert (H2 : exists s, In s (keys sample_ds) /\
                         Py.startswith s "wnd" = true).
  { exists "wnd10m". split; [now left|reflexivity]. }
  split; [exact H1|]. split; [exact H2|].
  split; [reflexivity|]. split; [reflexivity|].
  exact (formatted_dataset_returns (F := R) sample_ds 40%Z sample_store
           H1 H2 eq_refl eq_refl).
Defined.

End MoreSamples.
